(** * The simulation request client of docs/app.js

    A shallow embedding of the click handler of [docs/app.js]: the form
    values are read and parsed, the request body is serialised, the response
    is rendered as a metrics report and two histogram descriptions, and the
    loading indicator, the error region and the report node are written.

    ECMAScript strings are sequences of UTF-16 code units and ECMAScript
    numbers are IEEE 754 binary64 values; they are modelled as lists of
    code units and as primitive floats.  The built-ins the handler calls
    ([includes], [padEnd], [trim], [parseFloat], [parseInt], [toFixed],
    [Math.round], [JSON.stringify], [Array.prototype.filter]) follow the
    ECMAScript specification; where that specification leaves a choice to the
    engine (digits of a decimal literal beyond the twentieth, the closest of
    several shortest digit strings) the exact or closest value is taken.

    The collaborators of the handler are gathered in a record: the values of
    the form controls, the answer of the server to a request body, the number
    format of the default locale, the messages of the errors the engine
    raises.  [click] is the handler on a page whose five nodes are there and
    whose charting library is loaded; [click_on] is the handler on any page:
    writing to a node that is missing and calling the charting library may
    throw, before the [try] block as well as inside it.

    [frontend/app.js] is the template of this script, with four of the
    request fields and a single numeric format; it is embedded in the same
    way, in [Template]. *)

From Stdlib Require Import ZArith NArith List Ascii Bool Lia Floats.
From Stdlib Require Import DecimalN.
From Stdlib Require Import String.
Import ListNotations.

Set Warnings "-inexact-float".

(** ** Strings *)

Module JSString.

Definition code_unit := N.
Definition jstring := list code_unit.

(** A literal of the source, one code unit per character (the literals of
    the handler are ASCII). *)
Definition lit (s : string) : jstring :=
  map N_of_ascii (list_ascii_of_string s).
Arguments lit s%_string.

Definition LF : code_unit := 10%N.
Definition SPACE : code_unit := 32%N.
Definition QUOTE : code_unit := 34%N.

Fixpoint eqb (s t : jstring) : bool :=
  match s, t with
  | [], [] => true
  | a :: s', b :: t' => N.eqb a b && eqb s' t'
  | _, _ => false
  end.

(** [String.prototype.startsWith] *)
Fixpoint startsWith (s searchString : jstring) {struct searchString} : bool :=
  match searchString, s with
  | [], _ => true
  | _ :: _, [] => false
  | a :: p, b :: s' => N.eqb a b && startsWith s' p
  end.

(** [String.prototype.includes] *)
Fixpoint includes (s searchString : jstring) : bool :=
  startsWith s searchString ||
  match s with
  | [] => false
  | _ :: s' => includes s' searchString
  end.

(** [String.prototype.padEnd] with the default filler, a space. *)
Definition padEnd (s : jstring) (maxLength : nat) : jstring :=
  s ++ repeat SPACE (maxLength - List.length s).

(** WhiteSpace and LineTerminator code points, the ones [trim] strips. *)
Definition isWhiteSpace (c : code_unit) : bool :=
  existsb (N.eqb c)
    [9; 10; 11; 12; 13; 32; 160; 5760; 8232; 8233; 8239; 8287; 12288; 65279]%N
  || (8192 <=? c)%N && (c <=? 8202)%N.

Fixpoint trimStart (s : jstring) : jstring :=
  match s with
  | [] => []
  | c :: s' => if isWhiteSpace c then trimStart s' else s
  end.

Definition trimEnd (s : jstring) : jstring := rev (trimStart (rev s)).

(** [String.prototype.trim] *)
Definition trim (s : jstring) : jstring := trimEnd (trimStart s).

(** [Array.prototype.join] on an array of strings. *)
Fixpoint join (sep : jstring) (l : list jstring) : jstring :=
  match l with
  | [] => []
  | [s] => s
  | s :: l' => s ++ sep ++ join sep l'
  end.

(** The lines of a text: the maximal runs between line feeds. *)
Fixpoint lines (s : jstring) : list jstring :=
  match s with
  | [] => [[]]
  | c :: s' =>
      if N.eqb c LF then [] :: lines s'
      else match lines s' with
           | l :: ls => (c :: l) :: ls
           | [] => [[c]]
           end
  end.

(** Decimal digits of a natural number, most significant first. *)
Fixpoint units_of_uint (d : Decimal.uint) : jstring :=
  match d with
  | Decimal.Nil => []
  | Decimal.D0 d' => 48%N :: units_of_uint d'
  | Decimal.D1 d' => 49%N :: units_of_uint d'
  | Decimal.D2 d' => 50%N :: units_of_uint d'
  | Decimal.D3 d' => 51%N :: units_of_uint d'
  | Decimal.D4 d' => 52%N :: units_of_uint d'
  | Decimal.D5 d' => 53%N :: units_of_uint d'
  | Decimal.D6 d' => 54%N :: units_of_uint d'
  | Decimal.D7 d' => 55%N :: units_of_uint d'
  | Decimal.D8 d' => 56%N :: units_of_uint d'
  | Decimal.D9 d' => 57%N :: units_of_uint d'
  end.

Definition decimal (n : Z) : jstring := units_of_uint (N.to_uint (Z.to_N n)).

End JSString.
Import JSString.

(** ** Numbers *)

Module JSNumber.

Local Open Scope Z_scope.

(** The Number value of an integer (round to nearest, ties to even). *)
Definition of_Z (n : Z) : float := SF2Prim (binary_normalize prec emax n 0 false).

(** The Number value of a ratio of positive integers, with the given sign
    (round to nearest, ties to even). *)
Definition of_ratio (neg : bool) (num den : positive) : float :=
  SF2Prim (SFdiv prec emax (S754_finite neg num 0) (S754_finite false den 0)).

(** The Number value of [n * 10^e], the value of a decimal literal. *)
Definition of_decimal (neg : bool) (n : N) (e : Z) : float :=
  match n with
  | N0 => if neg then neg_zero else zero
  | Npos p =>
      if 0 <=? e then of_ratio neg (p * Z.to_pos (10 ^ e)) 1
      else of_ratio neg p (Z.to_pos (10 ^ (- e)))
  end.

Definition sign_prefix (s : bool) : jstring := if s then lit "-" else [].

(** *** Number::toString

    For the finite value [m * 2^e], [shortest_at m e p] is the integer [s]
    closest to the value for which [s * 10^p] rounds to it, if there is one.
    All quantities are counted in units of [2^(e-2) / 10^p], written as the
    fraction [scale / W]. *)
Definition shortest_at (m : positive) (e p : Z) : option Z :=
  let below := if Pos.eqb m (2 ^ 52) && (-1074 <? e) then 1 else 2 in
  let scale := (if 0 <=? e - 2 then 2 ^ (e - 2) else 1) * (if 0 <=? p then 1 else 10 ^ (- p)) in
  let W := (if 0 <=? e - 2 then 1 else 2 ^ (2 - e)) * (if 0 <=? p then 10 ^ p else 1) in
  let lo := (4 * Zpos m - below) * scale in
  let x := 4 * Zpos m * scale in
  let hi := (4 * Zpos m + 2) * scale in
  let closed := Z.even (Zpos m) in
  let s_min := if closed then (lo + W - 1) / W else lo / W + 1 in
  let s_max := if closed then hi / W else (hi + W - 1) / W - 1 in
  let q := x / W in
  let r := x mod W in
  let nearest :=
    match 2 * r ?= W with
    | Lt => q
    | Gt => q + 1
    | Eq => if Z.even q then q else q + 1
    end in
  if s_min <=? s_max then Some (Z.max s_min (Z.min nearest s_max)) else None.

Fixpoint shortest_from (fuel : nat) (m : positive) (e p : Z) : Z * Z :=
  match shortest_at m e p with
  | Some s => (s, p)
  | None =>
      match fuel with
      | O => (Zpos m, 0)
      | S fuel' => shortest_from fuel' m e (p - 1)
      end
  end.

(** The shortest digits [s] and the scale [p]: the search starts above the
    decimal exponent of the value ([2^(e+53)] bounds it) and moves down. *)
Definition shortest (m : positive) (e : Z) : Z * Z :=
  shortest_from 400 m e ((e + 53) * 30103 / 100000 + 1).

Definition zeros (n : Z) : jstring := repeat 48%N (Z.to_nat n).

Definition Number_toString (x : float) : jstring :=
  match Prim2SF x with
  | S754_nan => lit "NaN"
  | S754_zero _ => lit "0"
  | S754_infinity s => sign_prefix s ++ lit "Infinity"
  | S754_finite s m e =>
      let '(sd, p) := shortest m e in
      let digits := decimal sd in
      let k := Z.of_nat (List.length digits) in
      let n := k + p in
      sign_prefix s ++
      (if (k <=? n) && (n <=? 21) then digits ++ zeros (n - k)
       else if (0 <? n) && (n <=? 21) then
         firstn (Z.to_nat n) digits ++ lit "." ++ skipn (Z.to_nat n) digits
       else if (-6 <? n) && (n <=? 0) then lit "0." ++ zeros (- n) ++ digits
       else
         let exponent :=
           lit "e" ++ (if n - 1 <? 0 then lit "-" else lit "+") ++ decimal (Z.abs (n - 1)) in
         if k =? 1 then digits ++ exponent
         else firstn 1 digits ++ lit "." ++ skipn 1 digits ++ exponent)
  end.

(** *** Number.prototype.toFixed *)

(** The digits of [n / 10^f] with exactly [f] fraction digits. *)
Definition fixed_point (n : Z) (f : nat) : jstring :=
  let m := decimal n in
  match f with
  | O => m
  | S _ =>
      let m' := if (List.length m <=? f)%nat then repeat 48%N (f + 1 - List.length m) ++ m else m in
      let k := List.length m' in
      firstn (k - f) m' ++ lit "." ++ skipn (k - f) m'
  end.

(** The integer [n] for which [n / 10^f] is closest to [m * 2^e], the larger
    one when two are equally close. *)
Definition nearest_scaled (m : positive) (e : Z) (f : nat) : Z :=
  let t := Zpos m * 10 ^ Z.of_nat f in
  if 0 <=? e then t * 2 ^ e
  else (2 * t + 2 ^ (- e)) / (2 * 2 ^ (- e)).

(** [10^21 <= m * 2^e] *)
Definition at_least_1e21 (m : positive) (e : Z) : bool :=
  if 0 <=? e then 10 ^ 21 <=? Zpos m * 2 ^ e
  else 10 ^ 21 * 2 ^ (- e) <=? Zpos m.

Definition toFixed (x : float) (fractionDigits : nat) : jstring :=
  match Prim2SF x with
  | S754_zero _ => fixed_point 0 fractionDigits
  | S754_finite s m e =>
      sign_prefix s ++
      (if at_least_1e21 m e then Number_toString (abs x)
       else fixed_point (nearest_scaled m e fractionDigits) fractionDigits)
  | _ => Number_toString x
  end.

(** *** Math.round: the closest integral Number, the one towards +infinity
    when two are equally close. *)
Definition Math_round (x : float) : float :=
  match Prim2SF x with
  | S754_finite s m e =>
      if 0 <=? e then x
      else
        let v := if s then Zneg m else Zpos m in
        let r := (2 * v + 2 ^ (- e)) / (2 * 2 ^ (- e)) in
        if r =? 0 then (if s then neg_zero else zero) else of_Z r
  | _ => x
  end.

(** *** parseFloat and parseInt *)

Definition isDigit (c : code_unit) : bool := ((48 <=? c) && (c <=? 57))%N.

Fixpoint span_digits (s : jstring) : jstring * jstring :=
  match s with
  | c :: s' =>
      if isDigit c then let '(d, r) := span_digits s' in (c :: d, r) else ([], s)
  | [] => ([], [])
  end.

Definition digits_value (d : jstring) : N :=
  fold_left (fun acc c => (acc * 10 + (c - 48))%N) d 0%N.

(** An optional leading sign: whether it is a minus, and the rest. *)
Definition strip_sign (s : jstring) : bool * jstring :=
  match s with
  | 45%N :: r => (true, r)
  | 43%N :: r => (false, r)
  | _ => (false, s)
  end.

(** The value of an ExponentPart at the head of [s], 0 when there is none. *)
Definition exponent_part (s : jstring) : Z :=
  match s with
  | c :: r =>
      if (N.eqb c 101 || N.eqb c 69)%N then
        let '(neg, r1) := strip_sign r in
        let '(d, _) := span_digits r1 in
        match d with
        | [] => 0
        | _ => if neg then - Z.of_N (digits_value d) else Z.of_N (digits_value d)
        end
      else 0
  | [] => 0
  end.

(** [parseFloat]: the value of the longest prefix of the trimmed string that
    is a StrDecimalLiteral, NaN when no prefix is one. *)
Definition parseFloat (input : jstring) : float :=
  let '(neg, s1) := strip_sign (trimStart input) in
  if startsWith s1 (lit "Infinity") then (if neg then neg_infinity else infinity)
  else
    let '(ip, s2) := span_digits s1 in
    let '(fp, s3) :=
      match s2 with
      | 46%N :: r => span_digits r
      | _ => ([], s2)
      end in
    match ip ++ fp with
    | [] => nan
    | d => of_decimal neg (digits_value d) (exponent_part s3 - Z.of_nat (List.length fp))
    end.

Definition hex_value (c : code_unit) : option N :=
  if isDigit c then Some (c - 48)%N
  else if ((97 <=? c) && (c <=? 102))%N then Some (c - 87)%N
  else if ((65 <=? c) && (c <=? 70))%N then Some (c - 55)%N
  else None.

(** The value of the longest prefix of hexadecimal digits, if not empty. *)
Fixpoint hex_prefix (acc : option N) (s : jstring) : option N :=
  match s with
  | c :: s' =>
      match hex_value c with
      | Some v => hex_prefix (Some (match acc with Some a => a * 16 + v | None => v end)%N) s'
      | None => acc
      end
  | [] => acc
  end.

(** [parseInt] without a radix argument: radix 10, or 16 after a [0x]
    prefix; the value of the longest prefix of digits, NaN when it is empty. *)
Definition parseInt (input : jstring) : float :=
  let '(neg, s1) := strip_sign (trimStart input) in
  let mathInt :=
    if startsWith s1 (lit "0x") || startsWith s1 (lit "0X") then hex_prefix None (skipn 2 s1)
    else
      match fst (span_digits s1) with
      | [] => None
      | d => Some (digits_value d)
      end in
  match mathInt with
  | None => nan
  | Some 0%N => if neg then neg_zero else zero
  | Some n => of_Z (if neg then - Z.of_N n else Z.of_N n)
  end.

End JSNumber.
Import JSNumber.


(** ** JSON.stringify on an object whose property values are numbers *)

Module JSON.

Local Open Scope N_scope.

Definition hex_digit (n : N) : code_unit := if n <? 10 then 48 + n else 87 + n.

(** UnicodeEscape: a backslash, [u] and four lower-case hexadecimal digits. *)
Definition UnicodeEscape (c : code_unit) : jstring :=
  [92; 117; hex_digit (c / 4096 mod 16); hex_digit (c / 256 mod 16);
   hex_digit (c / 16 mod 16); hex_digit (c mod 16)].

Definition isLeadingSurrogate (c : code_unit) : bool := (55296 <=? c) && (c <=? 56319).
Definition isTrailingSurrogate (c : code_unit) : bool := (56320 <=? c) && (c <=? 57343).

Definition escape_unit (c : code_unit) : jstring :=
  if c =? 8 then [92; 98]
  else if c =? 9 then [92; 116]
  else if c =? 10 then [92; 110]
  else if c =? 12 then [92; 102]
  else if c =? 13 then [92; 114]
  else if c =? 34 then [92; 34]
  else if c =? 92 then [92; 92]
  else if (c <? 32) || isTrailingSurrogate c then UnicodeEscape c
  else [c].

Fixpoint quote_units (s : jstring) : jstring :=
  match s with
  | [] => []
  | c :: s' =>
      if isLeadingSurrogate c then
        match s' with
        | d :: s'' =>
            if isTrailingSurrogate d then c :: d :: quote_units s''
            else UnicodeEscape c ++ quote_units s'
        | [] => UnicodeEscape c
        end
      else escape_unit c ++ quote_units s'
  end.

Definition QuoteJSONString (s : jstring) : jstring := [QUOTE] ++ quote_units s ++ [QUOTE].

(** SerializeJSONProperty on a Number: its string when finite, [null]
    otherwise. *)
Definition serialize_number (x : float) : jstring :=
  if is_finite x then Number_toString x else lit "null".

Definition member (p : jstring * float) : jstring :=
  QuoteJSONString (fst p) ++ lit ":" ++ serialize_number (snd p).

(** [JSON.stringify] on an object given by its properties in order. *)
Definition stringify (o : list (jstring * float)) : jstring :=
  lit "{" ++ join (lit ",") (map member o) ++ lit "}".

End JSON.

(** ** Number.prototype.toLocaleString

    The result depends on the default locale of the host.  A locale is
    described here by its grouping and decimal separators; digits are grouped
    by three and at most three fraction digits are kept, rounded half away
    from zero, as engines do for the default decimal style of ECMA-402. *)

Module Intl.

Record locale := { group_separator : jstring; decimal_separator : jstring }.

Definition en_US : locale := {| group_separator := lit ","; decimal_separator := lit "." |}.
Definition de_DE : locale := {| group_separator := lit "."; decimal_separator := lit "," |}.

(** Separators between groups of three, on the reversed digits. *)
Fixpoint group_rev (sep_rev d : jstring) : jstring :=
  match d with
  | a :: b :: c :: ((_ :: _) as rest) => a :: b :: c :: sep_rev ++ group_rev sep_rev rest
  | _ => d
  end.

Definition grouped (sep digits : jstring) : jstring :=
  rev (group_rev (rev sep) (rev digits)).

Fixpoint strip_zeros_rev (d : jstring) : jstring :=
  match d with
  | 48%N :: d' => strip_zeros_rev d'
  | _ => d
  end.

(** The fraction digits of [n / 1000], without trailing zeros. *)
Definition fraction (n : Z) : jstring :=
  let d := decimal (n mod 1000) in
  rev (strip_zeros_rev (rev (repeat 48%N (3 - List.length d) ++ d))).

Definition format_scaled (l : locale) (n : Z) : jstring :=
  grouped (group_separator l) (decimal (n / 1000)) ++
  match fraction n with
  | [] => []
  | f => decimal_separator l ++ f
  end.

(** The integer [n] for which [n / 1000] is closest to [d * 10^p], the one
    away from zero when two are equally close. *)
Definition thousandths (d p : Z) : Z :=
  if (0 <=? p + 3)%Z then (d * 10 ^ (p + 3))%Z
  else ((2 * d + 10 ^ (- (p + 3))) / (2 * 10 ^ (- (p + 3))))%Z.

(** The decimal that is formatted is the shortest one that reads back as
    the Number, the one [Number::toString] writes. *)
Definition format (l : locale) (x : float) : jstring :=
  match Prim2SF x with
  | S754_nan => lit "NaN"
  | S754_infinity s => sign_prefix s ++ [8734%N]
  | S754_zero s => sign_prefix s ++ lit "0"
  | S754_finite s m e =>
      let '(d, p) := shortest m e in
      sign_prefix s ++ format_scaled l (thousandths d p)
  end.

End Intl.

(** ** The click handler *)

Module App.

Local Open Scope float_scope.

Definition API_URL : jstring := lit "https://monte-carlo-sim-for-vc.onrender.com/run_simulation".

(** The nodes the script binds when it is loaded. *)
Inductive node := loadingMessage | errorMessage | metricsOutput | irrPlotDiv | moicPlotDiv.

Definition node_eqb (a b : node) : bool :=
  match a, b with
  | loadingMessage, loadingMessage | errorMessage, errorMessage
  | metricsOutput, metricsOutput | irrPlotDiv, irrPlotDiv | moicPlotDiv, moicPlotDiv => true
  | _, _ => false
  end.

(** Histogram traces and layouts handed to the charting library. *)
Record trace := {
  trace_x : option (list float);
  trace_type : jstring;
  trace_nbinsx : option Z;
  trace_name : jstring;
  trace_marker_color : jstring }.

Record axis := {
  axis_title : jstring;
  axis_tickformat : option jstring;
  axis_type : option jstring }.

Record layout := {
  layout_title : jstring;
  layout_xaxis : axis;
  layout_yaxis : axis;
  layout_bargap : float }.

(** What the handler does to its collaborators, in order. *)
Inductive effect :=
  | set_display (n : node) (value : jstring)
  | set_textContent (n : node) (value : jstring)
  | Plotly_purge (n : node)
  | Plotly_newPlot (n : node) (data : list trace) (l : layout)
  | fetch (url method content_type body : jstring).

(** A value of the [metrics] object: a number or a string. *)
Inductive metric := Num (v : float) | Str (s : jstring).

(** The parsed response body, an object shaped as the wire contract says:
    [error] is a string, the values of [metrics] are numbers or strings, the
    samples are numbers.  A property that is absent reads as [undefined],
    here [None].  [metrics] holds the entries in the order of
    [Object.entries]. *)
Record results := {
  error : option jstring;
  metrics : option (list (jstring * metric));
  plot_data_irr : option (list float);
  plot_data_moic : option (list float) }.

(** How the request ends. *)
Inductive reply :=
  | rejected (message : jstring)
  | unparsable (message : jstring)
  | parsed (ok : bool) (r : results).

(** The places where the engine raises a TypeError. *)
Inductive fault :=
  | value_of_null (id : jstring)
  | entries_of_undefined
  | filter_of_undefined.

(** The collaborators of the handler: the form controls, the server, the
    default locale and the messages of the engine's own errors. *)
Record host := {
  control_value : jstring -> option jstring;
  respond : jstring -> reply;
  toLocaleString : float -> jstring;
  TypeError_message : fault -> jstring }.

(** *** Effects and exceptions *)

Inductive completion (A : Type) :=
  | normal (a : A)
  | thrown (message : jstring).
Arguments normal {A} a.
Arguments thrown {A} message.

Definition M (A : Type) : Type := list effect * completion A.

Definition ret {A} (a : A) : M A := ([], normal a).
Definition throw {A} (message : jstring) : M A := ([], thrown message).
Definition tell (e : effect) : M unit := ([e], normal tt).

Definition bind {A B} (m : M A) (k : A -> M B) : M B :=
  match snd m with
  | normal a => let r := k a in (fst m ++ fst r, snd r)
  | thrown e => (fst m, thrown e)
  end.

Declare Scope js_scope.
Delimit Scope js_scope with js.
Notation "x <- m ;; k" := (bind m (fun x => k))
  (at level 61, m at next level, right associativity) : js_scope.
Notation "m ;; k" := (bind m (fun _ => k))
  (at level 61, right associativity) : js_scope.
Local Open Scope js_scope.

Definition try_catch {A} (body : M A) (handler : jstring -> M A) : M A :=
  match snd body with
  | normal _ => body
  | thrown e => let r := handler e in (fst body ++ fst r, snd r)
  end.

Definition try_finally {A} (body : M A) (cleanup : M unit) : M A :=
  (fst body ++ fst cleanup,
   match snd cleanup with
   | normal _ => snd body
   | thrown e => thrown e
   end).

(** *** Gathering the inputs *)

(** One row for each property of [inputData]: its key, the id of its control
    and the parser applied to the value of the control. *)
Definition request_fields : list (string * string * (jstring -> float)) :=
  [ ("failure_rate_pct", "failure-rate", parseFloat);
    ("zombie_rate_pct", "zombie-rate", parseFloat);
    ("rec_min", "rec-min", parseFloat);
    ("rec_mode", "rec-mode", parseFloat);
    ("rec_max", "rec-max", parseFloat);
    ("initial_investment", "investment", parseFloat);
    ("val_min", "val-min", parseFloat);
    ("val_mode", "val-mode", parseFloat);
    ("val_max", "val-max", parseFloat);
    ("tam_min_p10", "tam-min", parseFloat);
    ("tam_max_p90", "tam-max", parseFloat);
    ("ms_min_p10_pct", "ms-min", parseFloat);
    ("ms_max_p90_pct", "ms-max", parseFloat);
    ("q1_mult", "mult-q1", parseFloat);
    ("median_mult", "mult-median", parseFloat);
    ("q3_mult", "mult-q3", parseFloat);
    ("time_min", "time-min", parseFloat);
    ("time_mode", "time-mode", parseFloat);
    ("time_max", "time-max", parseFloat);
    ("rounds_min", "rounds-min", parseInt);
    ("rounds_max", "rounds-max", parseInt);
    ("dil_min", "dil-min", parseFloat);
    ("dil_mode", "dil-mode", parseFloat);
    ("dil_max", "dil-max", parseFloat);
    ("num_simulations", "num-sims", parseInt) ]%string.

(** [parse(document.getElementById(id).value)] *)
Definition read (h : host) (id : string) (parse : jstring -> float) : M float :=
  match control_value h (lit id) with
  | Some v => ret (parse v)
  | None => throw (TypeError_message h (value_of_null (lit id)))
  end.

(** The object literal: the properties are evaluated in order. *)
Fixpoint gather (h : host) (fields : list (string * string * (jstring -> float)))
  : M (list (jstring * float)) :=
  match fields with
  | [] => ret []
  | (key, id, parse) :: rest =>
      v <- read h id parse ;;
      o <- gather h rest ;;
      ret ((lit key, v) :: o)
  end.

Definition inputData (h : host) : M (list (jstring * float)) := gather h request_fields.

(** *** The request *)

(** [fetch] followed by [response.json()]. *)
Definition post (h : host) (body : jstring) : M (bool * results) :=
  tell (fetch API_URL (lit "POST") (lit "application/json") body) ;;
  match respond h body with
  | rejected message => throw message
  | unparsable message => throw message
  | parsed ok r => ret (ok, r)
  end.

(** [a || b] on a string or undefined [a]: the empty string is falsy. *)
Definition or_else (a : option jstring) (b : jstring) : jstring :=
  match a with
  | Some (c :: s) => c :: s
  | _ => b
  end.

(** *** The metrics report *)

Definition format_entry (h : host) (key : jstring) (value : metric) : jstring :=
  match value with
  | Str [] => [LF] ++ key ++ [LF]
  | Str s => padEnd key 32 ++ lit ": " ++ s ++ [LF]
  | Num v =>
      if includes key (lit "IRR") || includes key (lit "P(") then
        padEnd key 32 ++ lit ": " ++ toFixed (v * 100) 2 ++ lit "%" ++ [LF]
      else if includes key (lit "MOIC") then
        padEnd key 32 ++ lit ": " ++ toFixed v 2 ++ lit "x" ++ [LF]
      else if includes key (lit "Val") || includes key (lit "Proceeds") then
        padEnd key 32 ++ lit ": $" ++ toLocaleString h (Math_round v) ++ [LF]
      else
        padEnd key 32 ++ lit ": " ++ toFixed v 2 ++ [LF]
  end.

(** The loop over the entries, appending to [metricsText]. *)
Definition metricsText (h : host) (entries : list (jstring * metric)) : jstring :=
  fold_left (fun text kv => text ++ format_entry h (fst kv) (snd kv)) entries [].

(** [metricsText.trim()], the text written to the report node. *)
Definition report_text (h : host) (entries : list (jstring * metric)) : jstring :=
  trim (metricsText h entries).

Definition Object_entries (h : host) (o : option (list (jstring * metric)))
  : M (list (jstring * metric)) :=
  match o with
  | Some entries => ret entries
  | None => throw (TypeError_message h entries_of_undefined)
  end.

(** *** The histograms *)

Definition irrTrace (r : results) : trace :=
  {| trace_x := plot_data_irr r;
     trace_type := lit "histogram";
     trace_nbinsx := Some 100%Z;
     trace_name := lit "IRR";
     trace_marker_color := lit "#007bff" |}.

Definition irrLayout : layout :=
  {| layout_title := lit "IRR Distribution";
     layout_xaxis := {| axis_title := lit "IRR"; axis_tickformat := Some (lit ".0%");
                        axis_type := None |};
     layout_yaxis := {| axis_title := lit "Frequency"; axis_tickformat := None;
                        axis_type := None |};
     layout_bargap := 0.05 |}.

(** [m > 0.01] *)
Definition above_threshold (m : float) : bool := 0.01 <? m.

(** [results.plot_data_moic.filter(m => m > 0.01)] *)
Definition moic_filter (h : host) (r : results) : M (list float) :=
  match plot_data_moic r with
  | Some l => ret (filter above_threshold l)
  | None => throw (TypeError_message h filter_of_undefined)
  end.

Definition moicTrace (x : list float) : trace :=
  {| trace_x := Some x;
     trace_type := lit "histogram";
     trace_nbinsx := None;
     trace_name := lit "MOIC";
     trace_marker_color := lit "#28a745" |}.

Definition moicLayout : layout :=
  {| layout_title := lit "MOIC Distribution (Log Scale)";
     layout_xaxis := {| axis_title := lit "MOIC (Log Scale, > 0.01x)";
                        axis_tickformat := None; axis_type := Some (lit "log") |};
     layout_yaxis := {| axis_title := lit "Frequency"; axis_tickformat := None;
                        axis_type := None |};
     layout_bargap := 0.05 |}.

(** *** The handler *)

(** The body of the [try] block. *)
Definition attempt (h : host) : M unit :=
  o <- inputData h ;;
  response <- post h (JSON.stringify o) ;;
  let '(ok, r) := response in
  (if ok then ret tt
   else throw (or_else (error r) (lit "An unknown error occurred"))) ;;
  entries <- Object_entries h (metrics r) ;;
  tell (set_textContent metricsOutput (report_text h entries)) ;;
  tell (Plotly_newPlot irrPlotDiv [irrTrace r] irrLayout) ;;
  x <- moic_filter h r ;;
  tell (Plotly_newPlot moicPlotDiv [moicTrace x] moicLayout).

(** The [catch] block. *)
Definition report (message : jstring) : M unit :=
  tell (set_textContent errorMessage (lit "Error: " ++ message)) ;;
  tell (set_display errorMessage (lit "block")).

Definition click (h : host) : M unit :=
  tell (set_display loadingMessage (lit "block")) ;;
  tell (set_display errorMessage (lit "none")) ;;
  tell (set_textContent metricsOutput []) ;;
  tell (Plotly_purge irrPlotDiv) ;;
  tell (Plotly_purge moicPlotDiv) ;;
  try_finally
    (try_catch (attempt h) report)
    (tell (set_display loadingMessage (lit "none"))).

(** *** The state of the nodes after a series of effects *)

Definition display_after (n : node) (initial : jstring) (w : list effect) : jstring :=
  fold_left
    (fun d e =>
       match e with
       | set_display n' v => if node_eqb n n' then v else d
       | _ => d
       end) w initial.

Definition textContent_after (n : node) (initial : jstring) (w : list effect) : jstring :=
  fold_left
    (fun t e =>
       match e with
       | set_textContent n' v => if node_eqb n n' then v else t
       | _ => t
       end) w initial.

Definition hides_loading (e : effect) : bool :=
  match e with
  | set_display loadingMessage v => JSString.eqb v (lit "none")
  | _ => false
  end.

End App.
Import App.


(** ** The notions the properties are stated with *)

Module Spec.

Local Open Scope float_scope.

(** The fields of a SimulationRequest, in the order of the data model. *)
Definition SimulationRequest_keys : list jstring :=
  map lit
    [ "failure_rate_pct"; "zombie_rate_pct"; "rec_min"; "rec_mode"; "rec_max";
      "initial_investment"; "val_min"; "val_mode"; "val_max";
      "tam_min_p10"; "tam_max_p90"; "ms_min_p10_pct"; "ms_max_p90_pct";
      "q1_mult"; "median_mult"; "q3_mult";
      "time_min"; "time_mode"; "time_max"; "rounds_min"; "rounds_max";
      "dil_min"; "dil_mode"; "dil_max"; "num_simulations" ]%string.

Definition integer_keys : list jstring :=
  map lit [ "rounds_min"; "rounds_max"; "num_simulations" ]%string.

(** The Number of an integer, zero of either sign included. *)
Definition integral (x : float) : Prop := x = neg_zero \/ exists n : Z, x = of_Z n.

(** A string that is not empty and neither begins nor ends with a white
    space or line terminator code unit: [trim] leaves it as it is. *)
Definition solid (s : jstring) : bool :=
  match s with
  | [] => false
  | c :: _ => negb (isWhiteSpace c) && negb (isWhiteSpace (last s c))
  end.

Definition single_line (s : jstring) : bool := negb (existsb (N.eqb LF) s).

(** The finite Numbers below [10^21] in magnitude, for which [toFixed]
    writes fixed-point digits. *)
Definition below_1e21 (x : float) : bool :=
  match Prim2SF x with
  | S754_zero _ => true
  | S754_finite _ m e => negb (at_least_1e21 m e)
  | _ => false
  end.

Definition digits_only (s : jstring) : Prop := Forall (fun c => isDigit c = true) s.

(** The six ways an entry of the metrics is formatted. *)
Inductive branch := header | verbatim | percentage | multiple | currency | plain.

(** In the order in which they are tried. *)
Definition precedence : list branch :=
  [header; verbatim; percentage; multiple; currency; plain].

(** The condition of each branch, taken on its own. *)
Definition applies (b : branch) (key : jstring) (value : metric) : bool :=
  match b with
  | header => match value with Str [] => true | _ => false end
  | verbatim => match value with Str _ => true | Num _ => false end
  | percentage => includes key (lit "IRR") || includes key (lit "P(")
  | multiple => includes key (lit "MOIC")
  | currency => includes key (lit "Val") || includes key (lit "Proceeds")
  | plain => true
  end.

Definition labelled (key text : jstring) : jstring :=
  padEnd key 32 ++ lit ": " ++ text ++ [LF].

(** What each branch appends to the report; the numeric branches are given
    for numbers only. *)
Definition render_as (h : host) (b : branch) (key : jstring) (value : metric)
  : option jstring :=
  match b, value with
  | header, _ => Some ([LF] ++ key ++ [LF])
  | verbatim, Str s => Some (labelled key s)
  | verbatim, Num v => Some (labelled key (Number_toString v))
  | percentage, Num v => Some (labelled key (toFixed (v * 100) 2 ++ lit "%"))
  | multiple, Num v => Some (labelled key (toFixed v 2 ++ lit "x"))
  | currency, Num v => Some (labelled key (lit "$" ++ toLocaleString h (Math_round v)))
  | plain, Num v => Some (labelled key (toFixed v 2))
  | _, Str _ => None
  end.

(** The branch selected by the precedence: the first that applies. *)
Definition selected (key : jstring) (value : metric) : option branch :=
  find (fun b => applies b key value) precedence.

(** What the handler does before the [try] block and in the [finally]
    block. *)
Definition prelude : list effect :=
  [ set_display loadingMessage (lit "block");
    set_display errorMessage (lit "none");
    set_textContent metricsOutput [];
    Plotly_purge irrPlotDiv;
    Plotly_purge moicPlotDiv ].

Definition cleanup : effect := set_display loadingMessage (lit "none").

Definition fallback : jstring := lit "An unknown error occurred".

Definition shown (message : jstring) : list effect :=
  [ set_textContent errorMessage (lit "Error: " ++ message);
    set_display errorMessage (lit "block") ].

Definition sent (body : jstring) : effect :=
  fetch API_URL (lit "POST") (lit "application/json") body.

(** The effects of the [try] and [catch] blocks, outcome by outcome. *)
Definition guarded_trace (h : host) : list effect :=
  match snd (inputData h) with
  | thrown message => shown message
  | normal o =>
      sent (JSON.stringify o) ::
      match respond h (JSON.stringify o) with
      | rejected message | unparsable message => shown message
      | parsed false r => shown (or_else (error r) fallback)
      | parsed true r =>
          match metrics r with
          | None => shown (TypeError_message h entries_of_undefined)
          | Some entries =>
              set_textContent metricsOutput (report_text h entries) ::
              Plotly_newPlot irrPlotDiv [irrTrace r] irrLayout ::
              match plot_data_moic r with
              | None => shown (TypeError_message h filter_of_undefined)
              | Some l =>
                  [Plotly_newPlot moicPlotDiv [moicTrace (filter above_threshold l)] moicLayout]
              end
          end
      end
  end.

(** [l1] is [l2] with some elements left out, the order being kept. *)
Inductive subsequence {A : Type} : list A -> list A -> Prop :=
  | subsequence_nil : subsequence [] []
  | subsequence_skip a l1 l2 : subsequence l1 l2 -> subsequence l1 (a :: l2)
  | subsequence_keep a l1 l2 : subsequence l1 l2 -> subsequence (a :: l1) (a :: l2).

End Spec.
Import Spec.

(** ** Hosts on which the handler is run in the examples *)

Module Sample.

Local Open Scope float_scope.

Definition sample_results : results :=
  {| error := None;
     metrics := Some [ (lit "--- Returns ---", Str []);
                       (lit "Mean IRR", Num 0.1234);
                       (lit "Median MOIC", Num 2.5);
                       (lit "Exit Val", Num 1234567.8);
                       (lit "P(MOIC > 3x)", Num 0.25);
                       (lit "P(Proceeds > 0)", Num 0.75);
                       (lit "Horizon", Num 7) ];
     plot_data_irr := Some [0.05; 0.1234];
     plot_data_moic := Some [0.001; 0.02; 5; 10] |}.

Definition engine_message (f : fault) : jstring :=
  match f with
  | value_of_null _ => lit "Cannot read properties of null (reading 'value')"
  | entries_of_undefined => lit "Cannot convert undefined or null to object"
  | filter_of_undefined => lit "Cannot read properties of undefined (reading 'filter')"
  end.

(** Every control holds [10000.7], except the one with the given id. *)
Definition controls (id value : string) (i : jstring) : option jstring :=
  if JSString.eqb i (lit id) then Some (lit value) else Some (lit "10000.7").

Definition sample_host (c : jstring -> option jstring) (r : reply) (l : Intl.locale) : host :=
  {| control_value := c;
     respond := fun _ => r;
     toLocaleString := Intl.format l;
     TypeError_message := engine_message |}.

Definition filled : jstring -> option jstring := controls "failure-rate" "10000.7".

(** The object gathered from the controls of a host. *)
Definition gathered (h : host) : list (jstring * float) :=
  match snd (inputData h) with
  | normal o => o
  | thrown _ => []
  end.

Definition failure_body (e : option jstring) : results :=
  {| error := e; metrics := None; plot_data_irr := None; plot_data_moic := None |}.

Definition report_of (entries : list (jstring * metric)) : results :=
  {| error := None; metrics := Some entries; plot_data_irr := Some [];
     plot_data_moic := Some [] |}.

Definition host_ok : host := sample_host filled (parsed true sample_results) Intl.en_US.

Definition host_german : host := sample_host filled (parsed true sample_results) Intl.de_DE.

Definition host_bad_input : host :=
  sample_host filled (parsed false (failure_body (Some (lit "bad input")))) Intl.en_US.

Definition host_empty_error : host :=
  sample_host filled (parsed false (failure_body (Some []))) Intl.en_US.


(** The entries of the sample results. *)
Definition sample_entries : list (jstring * metric) :=
  match metrics sample_results with
  | Some entries => entries
  | None => []
  end.

Definition host_huge_return : host :=
  sample_host filled (parsed true (report_of [(lit "Upside IRR", Num 1e20)])) Intl.en_US.

Definition host_huge_multiple : host :=
  sample_host filled (parsed true (report_of [(lit "Upside MOIC", Num 1e21)])) Intl.en_US.

Definition host_indented_header : host :=
  sample_host filled (parsed true (report_of [(lit " Returns", Str [])])) Intl.en_US.

End Sample.
Import Sample.


(** ** What is observed of a run *)

Module Observe.

Definition is_fetch (e : effect) : bool :=
  match e with
  | fetch _ _ _ _ => true
  | _ => false
  end.

Definition is_newPlot (e : effect) : bool :=
  match e with
  | Plotly_newPlot _ _ _ => true
  | _ => false
  end.

(** The chart held by a node after a series of effects: none once the node
    is purged, the last one drawn otherwise. *)
Definition chart_after (n : node) (initial : option (list trace * layout))
    (w : list effect) : option (list trace * layout) :=
  fold_left
    (fun c e =>
       match e with
       | Plotly_purge n' => if node_eqb n n' then None else c
       | Plotly_newPlot n' data l => if node_eqb n n' then Some (data, l) else c
       | _ => c
       end) w initial.


(** Whether the run reaches the rendering of the report: the controls are
    all there, the status is a success and the body has its metrics. *)
Definition renders (h : host) : bool :=
  match snd (inputData h) with
  | normal o =>
      match respond h (JSON.stringify o) with
      | parsed true r => match metrics r with Some _ => true | None => false end
      | _ => false
      end
  | thrown _ => false
  end.

(** The rows of the fields read with [parseInt]. *)
Definition integer_rows : list (string * string) :=
  [ ("rounds_min", "rounds-min"); ("rounds_max", "rounds-max");
    ("num_simulations", "num-sims") ]%string.

End Observe.
Import Observe.

(** ** The handler on any page

    The nodes are bound when the script is loaded and the charting library is
    a global of the page: a node may be missing, and then writing to it throws,
    and a call of the library may throw, as it does when the library is not
    loaded.  The statements before the [try] block are not guarded: when one
    of them throws, the handler stops there. *)

Module Page.

Local Open Scope js_scope.

(** For each node, the message of the error thrown by a write to it, by
    [Plotly.purge] and by [Plotly.newPlot] on it; [None] when the statement
    completes. *)
Record page := {
  node_fault : node -> option jstring;
  purge_fault : node -> option jstring;
  newPlot_fault : node -> option jstring }.

Definition raised (p : page) (e : effect) : option jstring :=
  match e with
  | set_display n _ => node_fault p n
  | set_textContent n _ => node_fault p n
  | Plotly_purge n => purge_fault p n
  | Plotly_newPlot n _ _ => newPlot_fault p n
  | fetch _ _ _ _ => None
  end.

(** A statement that has its effect, or throws and has none. *)
Definition perform (p : page) (e : effect) : M unit :=
  match raised p e with
  | Some message => throw message
  | None => tell e
  end.

(** The body of the [try] block. *)
Definition attempt_on (p : page) (h : host) : M unit :=
  o <- inputData h ;;
  response <- post h (JSON.stringify o) ;;
  let '(ok, r) := response in
  (if ok then ret tt
   else throw (or_else (error r) (lit "An unknown error occurred"))) ;;
  entries <- Object_entries h (metrics r) ;;
  perform p (set_textContent metricsOutput (report_text h entries)) ;;
  perform p (Plotly_newPlot irrPlotDiv [irrTrace r] irrLayout) ;;
  x <- moic_filter h r ;;
  perform p (Plotly_newPlot moicPlotDiv [moicTrace x] moicLayout).

(** The [catch] block. *)
Definition report_on (p : page) (message : jstring) : M unit :=
  perform p (set_textContent errorMessage (lit "Error: " ++ message)) ;;
  perform p (set_display errorMessage (lit "block")).

Definition click_on (p : page) (h : host) : M unit :=
  perform p (set_display loadingMessage (lit "block")) ;;
  perform p (set_display errorMessage (lit "none")) ;;
  perform p (set_textContent metricsOutput []) ;;
  perform p (Plotly_purge irrPlotDiv) ;;
  perform p (Plotly_purge moicPlotDiv) ;;
  try_finally
    (try_catch (attempt_on p h) (report_on p))
    (perform p (set_display loadingMessage (lit "none"))).

(** The five statements before the [try] block complete. *)
Definition completes (p : page) : bool :=
  forallb (fun e => match raised p e with None => true | Some _ => false end) prelude.

(** The effects of the [try] and [catch] blocks on a page where the
    statements before them complete, outcome by outcome. *)
Definition guarded_trace_on (p : page) (h : host) : list effect :=
  match snd (inputData h) with
  | thrown message => shown message
  | normal o =>
      sent (JSON.stringify o) ::
      match respond h (JSON.stringify o) with
      | rejected message | unparsable message => shown message
      | parsed false r => shown (or_else (error r) fallback)
      | parsed true r =>
          match metrics r with
          | None => shown (TypeError_message h entries_of_undefined)
          | Some entries =>
              set_textContent metricsOutput (report_text h entries) ::
              match newPlot_fault p irrPlotDiv with
              | Some message => shown message
              | None =>
                  Plotly_newPlot irrPlotDiv [irrTrace r] irrLayout ::
                  match plot_data_moic r with
                  | None => shown (TypeError_message h filter_of_undefined)
                  | Some l =>
                      match newPlot_fault p moicPlotDiv with
                      | Some message => shown message
                      | None =>
                          [Plotly_newPlot moicPlotDiv
                             [moicTrace (filter above_threshold l)] moicLayout]
                      end
                  end
              end
          end
      end
  end.

(** Pages for the examples: one where nothing throws, one whose charting
    library is not loaded, one whose library cannot draw. *)

Definition sound : page :=
  {| node_fault := fun _ => None;
     purge_fault := fun _ => None;
     newPlot_fault := fun _ => None |}.

Definition without_library : page :=
  {| node_fault := fun _ => None;
     purge_fault := fun _ => Some (lit "Plotly is not defined");
     newPlot_fault := fun _ => Some (lit "Plotly is not defined") |}.

Definition without_drawing : page :=
  {| node_fault := fun _ => None;
     purge_fault := fun _ => None;
     newPlot_fault := fun _ => Some (lit "No drawing context") |}.

End Page.
Import Page.

(** ** The template of the script, frontend/app.js

    The same handler with four of the request fields, a report that is a
    title followed by one line for each entry, and charts without colours
    and gaps. *)

Module Template.

Definition API_URL : jstring := lit "https://your-app-name.onrender.com/run_simulation".

Record trace := {
  trace_x : option (list float);
  trace_type : jstring;
  trace_nbinsx : option Z;
  trace_name : jstring }.

Record axis := {
  axis_title : jstring;
  axis_type : option jstring }.

Record layout := {
  layout_title : jstring;
  layout_xaxis : axis;
  layout_yaxis : axis }.

Inductive effect :=
  | set_display (n : node) (value : jstring)
  | set_textContent (n : node) (value : jstring)
  | Plotly_purge (n : node)
  | Plotly_newPlot (n : node) (data : list trace) (l : layout)
  | fetch (url method content_type body : jstring).

Definition M (A : Type) : Type := list effect * completion A.

Definition ret {A} (a : A) : M A := ([], normal a).
Definition throw {A} (message : jstring) : M A := ([], thrown message).
Definition tell (e : effect) : M unit := ([e], normal tt).

Definition bind {A B} (m : M A) (k : A -> M B) : M B :=
  match snd m with
  | normal a => let r := k a in (fst m ++ fst r, snd r)
  | thrown e => (fst m, thrown e)
  end.

Declare Scope template_scope.
Delimit Scope template_scope with template.
Notation "x <- m ;; k" := (bind m (fun x => k))
  (at level 61, m at next level, right associativity) : template_scope.
Notation "m ;; k" := (bind m (fun _ => k))
  (at level 61, right associativity) : template_scope.
Local Open Scope template_scope.

Definition try_catch {A} (body : M A) (handler : jstring -> M A) : M A :=
  match snd body with
  | normal _ => body
  | thrown e => let r := handler e in (fst body ++ fst r, snd r)
  end.

Definition try_finally {A} (body : M A) (cleanup : M unit) : M A :=
  (fst body ++ fst cleanup,
   match snd cleanup with
   | normal _ => snd body
   | thrown e => thrown e
   end).

(** The four properties of [inputData]. *)
Definition request_fields : list (string * string * (jstring -> float)) :=
  [ ("failure_rate_pct", "failure-rate", parseFloat);
    ("zombie_rate_pct", "zombie-rate", parseFloat);
    ("initial_investment", "investment", parseFloat);
    ("num_simulations", "num-sims", parseInt) ]%string.

Definition read (h : host) (id : string) (parse : jstring -> float) : M float :=
  match control_value h (lit id) with
  | Some v => ret (parse v)
  | None => throw (TypeError_message h (value_of_null (lit id)))
  end.

Fixpoint gather (h : host) (fields : list (string * string * (jstring -> float)))
  : M (list (jstring * float)) :=
  match fields with
  | [] => ret []
  | (key, id, parse) :: rest =>
      v <- read h id parse ;;
      o <- gather h rest ;;
      ret ((lit key, v) :: o)
  end.

Definition inputData (h : host) : M (list (jstring * float)) := gather h request_fields.

Definition post (h : host) (body : jstring) : M (bool * results) :=
  tell (fetch API_URL (lit "POST") (lit "application/json") body) ;;
  match respond h body with
  | rejected message => throw message
  | unparsable message => throw message
  | parsed ok r => ret (ok, r)
  end.

(** A string value marks a header, whatever the string; a number is written
    with two fraction digits, whatever the key. *)
Definition format_entry (key : jstring) (value : metric) : jstring :=
  match value with
  | Str _ => key ++ [LF]
  | Num v => padEnd key 32 ++ lit ": " ++ toFixed v 2 ++ [LF]
  end.

Definition title : jstring := lit "--- Simulation Metrics ---" ++ [LF; LF].

Definition metricsText (entries : list (jstring * metric)) : jstring :=
  fold_left (fun text kv => text ++ format_entry (fst kv) (snd kv)) entries title.

Definition Object_entries (h : host) (o : option (list (jstring * metric)))
  : M (list (jstring * metric)) :=
  match o with
  | Some entries => ret entries
  | None => throw (TypeError_message h entries_of_undefined)
  end.

Definition irrTrace (r : results) : trace :=
  {| trace_x := plot_data_irr r;
     trace_type := lit "histogram";
     trace_nbinsx := Some 100%Z;
     trace_name := lit "IRR" |}.

Definition irrLayout : layout :=
  {| layout_title := lit "IRR Distribution";
     layout_xaxis := {| axis_title := lit "IRR"; axis_type := None |};
     layout_yaxis := {| axis_title := lit "Frequency"; axis_type := None |} |}.

Definition moic_filter (h : host) (r : results) : M (list float) :=
  match plot_data_moic r with
  | Some l => ret (filter above_threshold l)
  | None => throw (TypeError_message h filter_of_undefined)
  end.

Definition moicTrace (x : list float) : trace :=
  {| trace_x := Some x;
     trace_type := lit "histogram";
     trace_nbinsx := None;
     trace_name := lit "MOIC" |}.

Definition moicLayout : layout :=
  {| layout_title := lit "MOIC Distribution (Log Scale)";
     layout_xaxis := {| axis_title := lit "MOIC (Log)"; axis_type := Some (lit "log") |};
     layout_yaxis := {| axis_title := lit "Frequency"; axis_type := None |} |}.

Definition attempt (h : host) : M unit :=
  o <- inputData h ;;
  response <- post h (JSON.stringify o) ;;
  let '(ok, r) := response in
  (if ok then ret tt
   else throw (or_else (error r) (lit "An unknown error occurred"))) ;;
  entries <- Object_entries h (metrics r) ;;
  tell (set_textContent metricsOutput (metricsText entries)) ;;
  tell (Plotly_newPlot irrPlotDiv [irrTrace r] irrLayout) ;;
  x <- moic_filter h r ;;
  tell (Plotly_newPlot moicPlotDiv [moicTrace x] moicLayout).

Definition report (message : jstring) : M unit :=
  tell (set_textContent errorMessage (lit "Error: " ++ message)) ;;
  tell (set_display errorMessage (lit "block")).

Definition click (h : host) : M unit :=
  tell (set_display loadingMessage (lit "block")) ;;
  tell (set_display errorMessage (lit "none")) ;;
  tell (set_textContent metricsOutput []) ;;
  tell (Plotly_purge irrPlotDiv) ;;
  tell (Plotly_purge moicPlotDiv) ;;
  try_finally
    (try_catch (attempt h) report)
    (tell (set_display loadingMessage (lit "none"))).

Definition display_after (n : node) (initial : jstring) (w : list effect) : jstring :=
  fold_left
    (fun d e =>
       match e with
       | set_display n' v => if node_eqb n n' then v else d
       | _ => d
       end) w initial.

Definition textContent_after (n : node) (initial : jstring) (w : list effect) : jstring :=
  fold_left
    (fun t e =>
       match e with
       | set_textContent n' v => if node_eqb n n' then v else t
       | _ => t
       end) w initial.

Definition hides_loading (e : effect) : bool :=
  match e with
  | set_display loadingMessage v => JSString.eqb v (lit "none")
  | _ => false
  end.

Definition prelude : list effect :=
  [ set_display loadingMessage (lit "block");
    set_display errorMessage (lit "none");
    set_textContent metricsOutput [];
    Plotly_purge irrPlotDiv;
    Plotly_purge moicPlotDiv ].

Definition cleanup : effect := set_display loadingMessage (lit "none").

Definition shown (message : jstring) : list effect :=
  [ set_textContent errorMessage (lit "Error: " ++ message);
    set_display errorMessage (lit "block") ].

Definition sent (body : jstring) : effect :=
  fetch API_URL (lit "POST") (lit "application/json") body.

(** The effects of the [try] and [catch] blocks, outcome by outcome. *)
Definition guarded_trace (h : host) : list effect :=
  match snd (inputData h) with
  | thrown message => shown message
  | normal o =>
      sent (JSON.stringify o) ::
      match respond h (JSON.stringify o) with
      | rejected message | unparsable message => shown message
      | parsed false r => shown (or_else (error r) fallback)
      | parsed true r =>
          match metrics r with
          | None => shown (TypeError_message h entries_of_undefined)
          | Some entries =>
              set_textContent metricsOutput (metricsText entries) ::
              Plotly_newPlot irrPlotDiv [irrTrace r] irrLayout ::
              match plot_data_moic r with
              | None => shown (TypeError_message h filter_of_undefined)
              | Some l =>
                  [Plotly_newPlot moicPlotDiv [moicTrace (filter above_threshold l)] moicLayout]
              end
          end
      end
  end.

(** Whether a key of the full request is one of the template. *)
Definition kept (key : jstring) : bool :=
  existsb (fun row => JSString.eqb key (lit (fst (fst row)))) request_fields.


(** *** The template on any page *)

Definition raised (p : page) (e : effect) : option jstring :=
  match e with
  | set_display n _ => node_fault p n
  | set_textContent n _ => node_fault p n
  | Plotly_purge n => purge_fault p n
  | Plotly_newPlot n _ _ => newPlot_fault p n
  | fetch _ _ _ _ => None
  end.

Definition perform (p : page) (e : effect) : M unit :=
  match raised p e with
  | Some message => throw message
  | None => tell e
  end.

Definition attempt_on (p : page) (h : host) : M unit :=
  (o <- inputData h ;;
   response <- post h (JSON.stringify o) ;;
   let '(ok, r) := response in
   (if ok then ret tt
    else throw (or_else (error r) (lit "An unknown error occurred"))) ;;
   entries <- Object_entries h (metrics r) ;;
   perform p (set_textContent metricsOutput (metricsText entries)) ;;
   perform p (Plotly_newPlot irrPlotDiv [irrTrace r] irrLayout) ;;
   x <- moic_filter h r ;;
   perform p
     (Plotly_newPlot moicPlotDiv [moicTrace x] moicLayout)).

Definition report_on (p : page) (message : jstring) : M unit :=
  (perform p (set_textContent errorMessage (lit "Error: " ++ message)) ;;
   perform p (set_display errorMessage (lit "block"))).

Definition click_on (p : page) (h : host) : M unit :=
  (perform p (set_display loadingMessage (lit "block")) ;;
   perform p (set_display errorMessage (lit "none")) ;;
   perform p (set_textContent metricsOutput []) ;;
   perform p (Plotly_purge irrPlotDiv) ;;
   perform p (Plotly_purge moicPlotDiv) ;;
   try_finally
     (try_catch (attempt_on p h) (report_on p))
     (perform p (set_display loadingMessage (lit "none")))).

Definition completes (p : page) : bool :=
  forallb (fun e => match raised p e with None => true | Some _ => false end)
    prelude.

Definition guarded_trace_on (p : page) (h : host) : list effect :=
  match snd (inputData h) with
  | thrown message => shown message
  | normal o =>
      sent (JSON.stringify o) ::
      match respond h (JSON.stringify o) with
      | rejected message | unparsable message => shown message
      | parsed false r => shown (or_else (error r) fallback)
      | parsed true r =>
          match metrics r with
          | None => shown (TypeError_message h entries_of_undefined)
          | Some entries =>
              set_textContent metricsOutput (metricsText entries) ::
              match newPlot_fault p irrPlotDiv with
              | Some message => shown message
              | None =>
                  Plotly_newPlot irrPlotDiv [irrTrace r] irrLayout ::
                  match plot_data_moic r with
                  | None => shown (TypeError_message h filter_of_undefined)
                  | Some l =>
                      match newPlot_fault p moicPlotDiv with
                      | Some message => shown message
                      | None =>
                          [Plotly_newPlot moicPlotDiv
                             [moicTrace (filter above_threshold l)]
                             moicLayout]
                      end
                  end
              end
          end
      end
  end.

End Template.

(** ** More hosts for the examples *)

Module Sample2.

Local Open Scope float_scope.

(** Every control holds [10000.7], except the one with the given id, which
    is missing. *)
Definition controls_without (id : string) (i : jstring) : option jstring :=
  if JSString.eqb i (lit id) then None else Some (lit "10000.7").

Definition host_missing_control : host :=
  sample_host (controls_without "failure-rate") (parsed true sample_results) Intl.en_US.

Definition host_offline : host :=
  sample_host filled (rejected (lit "Failed to fetch")) Intl.en_US.

Definition results_without_moic : results :=
  {| error := None; metrics := metrics sample_results;
     plot_data_irr := plot_data_irr sample_results; plot_data_moic := None |}.

Definition host_without_moic : host :=
  sample_host filled (parsed true results_without_moic) Intl.en_US.


Definition host_fractional_rounds : host :=
  sample_host (controls "rounds-max" "7.9 rounds") (parsed true sample_results) Intl.en_US.

End Sample2.
Import Sample2.


(** * Properties *)

Arguments lit : simpl never.
Arguments isWhiteSpace : simpl never.
Arguments toFixed : simpl never.
Arguments Number_toString : simpl never.
Arguments Math_round : simpl never.
Arguments parseFloat : simpl never.
Arguments parseInt : simpl never.
Arguments padEnd : simpl never.
Arguments trim : simpl never.

(** ** Strings *)

Section Strings.

Implicit Types s t a b mid : jstring.
Implicit Types c d : code_unit.

Lemma startsWith_app t s : startsWith (t ++ s) t = true.
Proof.
  induction t as [|c t IH]; simpl.
  - destruct s; reflexivity.
  - rewrite N.eqb_refl. exact IH.
Qed.

Lemma includes_unfold s t :
  includes s t = startsWith s t || match s with [] => false | _ :: s' => includes s' t end.
Proof. destruct s; reflexivity. Qed.

Lemma includes_app a t b : includes (a ++ t ++ b) t = true.
Proof.
  induction a as [|c a IH].
  - rewrite includes_unfold. simpl app. rewrite startsWith_app. reflexivity.
  - rewrite includes_unfold. change ((c :: a) ++ t ++ b) with (c :: a ++ t ++ b).
    cbv iota. rewrite IH. apply orb_true_r.
Qed.

Lemma includes_prefix t b : includes (t ++ b) t = true.
Proof. exact (includes_app [] t b). Qed.

Lemma startsWith_includes s t : startsWith s t = true -> includes s t = true.
Proof. intros H. rewrite includes_unfold, H. reflexivity. Qed.

Lemma includes_join sep (l : list jstring) t : In t l -> includes (join sep l) t = true.
Proof.
  induction l as [|u l IH]; [contradiction|].
  intros [->|Hin].
  - destruct l; simpl.
    + rewrite <- (app_nil_r t) at 1. apply includes_prefix.
    + apply includes_prefix.
  - destruct l as [|v l]; [contradiction|].
    change (join sep (u :: v :: l)) with (u ++ sep ++ join sep (v :: l)).
    specialize (IH Hin).
    revert IH. generalize (join sep (v :: l)). intros w Hw.
    rewrite app_assoc.
    clear - Hw. induction (u ++ sep) as [|c a IHa].
    + exact Hw.
    + rewrite includes_unfold. change ((c :: a) ++ w) with (c :: a ++ w).
      cbv iota. rewrite IHa. apply orb_true_r.
Qed.

(** *** trim *)

Lemma trimStart_keep a c s :
  isWhiteSpace c = false -> trimStart (a ++ c :: s) = trimStart a ++ c :: s.
Proof.
  intros Hc. induction a as [|x a IH]; simpl.
  - rewrite Hc. reflexivity.
  - destruct (isWhiteSpace x); [exact IH | reflexivity].
Qed.

Lemma trimEnd_keep a d s :
  isWhiteSpace d = false -> trimEnd (a ++ d :: s) = a ++ d :: trimEnd s.
Proof.
  intros Hd. unfold trimEnd.
  rewrite rev_app_distr. simpl rev. rewrite <- app_assoc. simpl app.
  rewrite (trimStart_keep _ _ _ Hd).
  rewrite rev_app_distr. simpl rev. rewrite rev_involutive, <- app_assoc.
  reflexivity.
Qed.

Lemma solid_ends mid :
  solid mid = true ->
  (exists c s, mid = c :: s /\ isWhiteSpace c = false) /\
  (exists s d, mid = s ++ [d] /\ isWhiteSpace d = false).
Proof.
  destruct mid as [|c s]; [discriminate|].
  unfold solid. rewrite andb_true_iff, !negb_true_iff. intros [Hc Hd]. split.
  - now exists c, s.
  - exists (removelast (c :: s)), (last (c :: s) c). split; [|exact Hd].
    apply app_removelast_last. discriminate.
Qed.

(** A solid string inside a text survives [trim], with all that lies
    between it and the ends of the trimmed text. *)
Lemma trim_keep a mid b :
  solid mid = true -> trim (a ++ mid ++ b) = trimStart a ++ mid ++ trimEnd b.
Proof.
  intros H. destruct (solid_ends mid H) as [(c & s & Hcs & Hc) (s' & d & Hsd & Hd)].
  unfold trim.
  rewrite Hcs at 1. simpl app. rewrite (trimStart_keep _ _ _ Hc).
  change (c :: s ++ b) with ((c :: s) ++ b). rewrite <- Hcs, Hsd.
  replace (trimStart a ++ (s' ++ [d]) ++ b) with ((trimStart a ++ s') ++ d :: b)
    by now rewrite <- !app_assoc.
  rewrite (trimEnd_keep _ _ _ Hd). now rewrite <- !app_assoc.
Qed.

Lemma includes_trim a mid b : solid mid = true -> includes (trim (a ++ mid ++ b)) mid = true.
Proof. intros H. rewrite (trim_keep _ _ _ H). apply includes_app. Qed.

Lemma trimStart_before_LF a :
  trimStart (a ++ [LF]) = [] \/ exists u, trimStart (a ++ [LF]) = u ++ [LF].
Proof.
  induction a as [|x a IH]; simpl.
  - left. reflexivity.
  - destruct (isWhiteSpace x); [exact IH|].
    right. exists (x :: a). reflexivity.
Qed.

Lemma trimEnd_after_LF b :
  trimEnd (LF :: b) = [] \/ exists v, trimEnd (LF :: b) = LF :: v.
Proof.
  unfold trimEnd. simpl rev.
  destruct (trimStart_before_LF (rev b)) as [->|[u ->]].
  - left. reflexivity.
  - right. exists (rev u). rewrite rev_app_distr. reflexivity.
Qed.

(** *** lines *)

Lemma lines_not_nil s : lines s <> [].
Proof.
  destruct s as [|c s]; simpl; [discriminate|].
  destruct (N.eqb c LF); [discriminate|]. destruct (lines s); discriminate.
Qed.

Lemma lines_app_LF a b : lines (a ++ LF :: b) = lines a ++ lines b.
Proof.
  induction a as [|c a IH]; simpl.
  - reflexivity.
  - destruct (N.eqb c LF).
    + rewrite IH. reflexivity.
    + rewrite IH. destruct (lines a) as [|l ls] eqn:E.
      * now apply lines_not_nil in E.
      * reflexivity.
Qed.

Lemma lines_single s : single_line s = true -> lines s = [s].
Proof.
  unfold single_line. induction s as [|c s IH]; [reflexivity|].
  cbn [existsb lines].
  rewrite negb_orb, andb_true_iff, negb_true_iff. intros [Hc Hs].
  rewrite N.eqb_sym, Hc, (IH Hs). reflexivity.
Qed.

(** A single line between two line breaks, or between a line break and an
    end of the text, is one of the lines of the text. *)
Lemma line_between a key b :
  single_line key = true ->
  (a = [] \/ exists u, a = u ++ [LF]) ->
  (b = [] \/ exists v, b = LF :: v) ->
  In key (lines (a ++ key ++ b)).
Proof.
  intros Hk Ha Hb.
  assert (Hhead : exists ls, lines (key ++ b) = key :: ls).
  { destruct Hb as [->|[v ->]].
    - rewrite app_nil_r, (lines_single _ Hk). now exists [].
    - rewrite lines_app_LF, (lines_single _ Hk). now exists (lines v). }
  destruct Hhead as [ls Hls].
  destruct Ha as [->|[u ->]].
  - simpl app. rewrite Hls. now left.
  - rewrite <- app_assoc. simpl app. rewrite lines_app_LF, Hls.
    apply in_or_app. right. now left.
Qed.

End Strings.

(** ** Numbers *)

Section Numbers.

Lemma units_of_uint_digits (d : Decimal.uint) : digits_only (units_of_uint d).
Proof. induction d; simpl; constructor; auto. Qed.

Lemma decimal_digits (n : Z) : digits_only (decimal n).
Proof. apply units_of_uint_digits. Qed.

Lemma decimal_not_nil (n : Z) : decimal n <> [].
Proof.
  unfold decimal. destruct (Z.to_N n) as [|p]; [discriminate|].
  change (N.to_uint (N.pos p)) with (Pos.to_uint p).
  pose proof (DecimalPos.Unsigned.to_uint_nonnil p) as H.
  destruct (Pos.to_uint p); [contradiction | discriminate..].
Qed.

(** [fixed_point n 2]: digits, a point, two digits. *)
Lemma fixed_point_two_places (n : Z) :
  exists int frac,
    fixed_point n 2 = int ++ lit "." ++ frac /\
    int <> [] /\ List.length frac = 2%nat /\ digits_only int /\ digits_only frac.
Proof.
  unfold fixed_point.
  pose proof (decimal_digits n) as Hm.
  generalize dependent (decimal n). intros m Hm.
  set (m' := if (List.length m <=? 2)%nat
             then repeat 48%N (2 + 1 - List.length m) ++ m else m).
  assert (Hd : digits_only m').
  { unfold m'. destruct (List.length m <=? 2)%nat; [|exact Hm].
    apply Forall_app. split; [|exact Hm].
    apply Forall_forall. intros c Hc. apply repeat_spec in Hc. now subst. }
  assert (Hl : (3 <= List.length m')%nat).
  { unfold m'. destruct (Nat.leb_spec (List.length m) 2) as [H|H]; [|exact H].
    rewrite length_app, repeat_length. unfold code_unit in *. lia. }
  clearbody m'. unfold code_unit in *.
  exists (firstn (List.length m' - 2) m'), (skipn (List.length m' - 2) m').
  rewrite <- (firstn_skipn (List.length m' - 2) m') in Hd.
  apply Forall_app in Hd. destruct Hd as [Hi Hf].
  repeat split; try assumption.
  - intros E. apply (f_equal (@List.length _)) in E.
    rewrite length_firstn in E. simpl in E. lia.
  - rewrite length_skipn. lia.
Qed.

(** Below [10^21], [toFixed(2)] writes an optional minus sign, digits, a
    point and exactly two digits. *)
Lemma toFixed_two_places (x : float) :
  below_1e21 x = true ->
  exists sign int frac,
    toFixed x 2 = sign ++ int ++ lit "." ++ frac /\
    (sign = [] \/ sign = lit "-") /\
    int <> [] /\ List.length frac = 2%nat /\ digits_only int /\ digits_only frac.
Proof.
  unfold below_1e21, toFixed. destruct (Prim2SF x) as [s|s| |s m e]; try discriminate.
  - intros _. destruct (fixed_point_two_places 0) as (int & frac & E & H).
    exists [], int, frac. split; [exact E|]. split; [now left | exact H].
  - rewrite negb_true_iff. intros ->.
    destruct (fixed_point_two_places (nearest_scaled m e 2)) as (int & frac & E & H).
    exists (sign_prefix s), int, frac. rewrite E. split; [reflexivity|].
    split; [destruct s; [now right | now left] | exact H].
Qed.

(** The integer that [toFixed] prints is the nearest to the scaled value,
    the larger one of two that are equally near. *)
Lemma nearest_scaled_spec (m : positive) (e : Z) (f : nat) :
  (0 <= e -> nearest_scaled m e f = Zpos m * 10 ^ Z.of_nat f * 2 ^ e)%Z /\
  (e < 0 ->
   2 * 2 ^ (- e) * nearest_scaled m e f <= 2 * (Zpos m * 10 ^ Z.of_nat f) + 2 ^ (- e)
   < 2 * 2 ^ (- e) * (nearest_scaled m e f + 1))%Z.
Proof.
  unfold nearest_scaled. split; intros He.
  - destruct (Z.leb_spec 0 e); [reflexivity | lia].
  - destruct (Z.leb_spec 0 e); [lia|].
    assert (Hd : (0 < 2 * 2 ^ (- e))%Z) by (apply Z.mul_pos_pos; [lia | apply Z.pow_pos_nonneg; lia]).
    split.
    + apply Z.mul_div_le. exact Hd.
    + exact (Z.mul_succ_div_gt (2 * (Zpos m * 10 ^ Z.of_nat f) + 2 ^ (- e)) _ Hd).
Qed.

End Numbers.

(** ** Effects *)

Arguments JSON.stringify : simpl never.
Arguments report_text : simpl never.
Arguments or_else : simpl never.

Section Effects.

Variable h : host.

Lemma bind_normal {A B} (m : M A) (k : A -> M B) a :
  snd m = normal a -> bind m k = (fst m ++ fst (k a), snd (k a)).
Proof. unfold bind. intros ->. reflexivity. Qed.

Lemma bind_thrown {A B} (m : M A) (k : A -> M B) e :
  snd m = thrown e -> bind m k = (fst m, thrown e).
Proof. unfold bind. intros ->. reflexivity. Qed.

(** Reading the controls has no effect on the collaborators. *)
Lemma gather_silent fields : fst (gather h fields) = [].
Proof.
  induction fields as [|[[key id] parse] rest IH]; [reflexivity|].
  simpl. unfold read. destruct (control_value h (lit id)); [|reflexivity].
  unfold bind at 1. cbn [snd fst ret app].
  destruct (snd (gather h rest)) eqn:E.
  - rewrite (bind_normal _ _ _ E). simpl. rewrite IH. reflexivity.
  - rewrite (bind_thrown _ _ _ E). simpl. exact IH.
Qed.

(** The object gathered has one property for each row, in order. *)
Lemma gather_normal fields o :
  snd (gather h fields) = normal o ->
  Forall2 (fun row kv =>
             exists v, control_value h (lit (snd (fst row))) = Some v /\
                       kv = (lit (fst (fst row)), snd row v)) fields o.
Proof.
  revert o. induction fields as [|[[key id] parse] rest IH]; intros o.
  - simpl. intros [= <-]. constructor.
  - simpl. unfold read. destruct (control_value h (lit id)) as [v|] eqn:Ev.
    + unfold bind at 1. cbn [snd fst ret app].
      destruct (snd (gather h rest)) as [o'|e] eqn:E.
      * rewrite (bind_normal _ _ _ E). simpl. intros [= <-].
        constructor; [|now apply IH]. exists v. now split.
      * rewrite (bind_thrown _ _ _ E). simpl. discriminate.
    + simpl. discriminate.
Qed.

Lemma gather_total fields :
  (forall key id parse, In (key, id, parse) fields -> control_value h (lit id) <> None) ->
  exists o, snd (gather h fields) = normal o.
Proof.
  induction fields as [|[[key id] parse] rest IH]; intros Hall.
  - now exists [].
  - destruct IH as [o' E].
    { intros k i p Hin. apply (Hall k i p). now right. }
    simpl. unfold read. destruct (control_value h (lit id)) as [v|] eqn:Ev.
    + unfold bind at 1. cbn [snd fst ret app].
      rewrite (bind_normal _ _ _ E). simpl. eauto.
    + exfalso. apply (Hall key id parse); [now left | exact Ev].
Qed.

Lemma inputData_pair : inputData h = ([], snd (inputData h)).
Proof.
  rewrite (surjective_pairing (inputData h)) at 1.
  unfold inputData. rewrite gather_silent. reflexivity.
Qed.

(** The [try] and [catch] blocks, outcome by outcome. *)
Lemma guarded_run :
  try_catch (attempt h) report = (guarded_trace h, normal tt).
Proof.
  unfold guarded_trace, attempt. rewrite inputData_pair at 1.
  destruct (snd (inputData h)) as [o|e]; [|reflexivity].
  unfold bind at 1. cbn [snd fst app].
  unfold post. destruct (respond h (JSON.stringify o)) as [e|e|[|] r]; try reflexivity.
  cbv [bind try_catch tell ret throw report fst snd app shown sent
       Object_entries moic_filter].
  destruct (metrics r) as [entries|]; destruct (plot_data_moic r) as [l|];
    reflexivity.
Qed.

(** The handler: the prelude, the guarded part, the cleanup; its promise is
    always fulfilled. *)
Lemma click_run : click h = (prelude ++ guarded_trace h ++ [cleanup], normal tt).
Proof.
  unfold click. rewrite guarded_run. reflexivity.
Qed.

End Effects.

(** ** The handler, outcome by outcome *)

(** [H] says that an effect is one of a list written out, none of which it
    can be. *)
Ltac none_of H := repeat (destruct H as [H|H]; [discriminate|]); contradiction.

Section Handler.

Variable h : host.

Lemma guarded_quiet : filter hides_loading (guarded_trace h) = [].
Proof.
  unfold guarded_trace.
  destruct (snd (inputData h)) as [o|e]; [|reflexivity].
  destruct (respond h (JSON.stringify o)) as [e|e|[|] r]; try reflexivity.
  destruct (metrics r); [|reflexivity].
  destruct (plot_data_moic r); reflexivity.
Qed.

(** The only request of a run carries the serialised inputs. *)
Lemma fetch_in_click url method content_type body :
  In (fetch url method content_type body) (fst (click h)) ->
  exists o, snd (inputData h) = normal o /\
            fetch url method content_type body = sent (JSON.stringify o).
Proof.
  rewrite click_run. cbn [fst]. rewrite !in_app_iff.
  intros [Hp|[Hg|Hc]].
  - cbn in Hp. none_of Hp.
  - unfold guarded_trace in Hg.
    destruct (snd (inputData h)) as [o|e].
    + exists o. split; [reflexivity|].
      destruct Hg as [Hg|Hg]; [now symmetry|]. exfalso.
      destruct (respond h (JSON.stringify o)) as [e|e|[|] r];
        [| | |]; cbn in Hg.
      1,2,4: none_of Hg.
      destruct (metrics r); [destruct (plot_data_moic r)|]; cbn in Hg; none_of Hg.
    + cbn in Hg. none_of Hg.
  - cbn in Hc. destruct Hc as [Hc|[]]. discriminate.
Qed.

(** When the controls are all there, the request is sent. *)
Lemma click_sends o :
  snd (inputData h) = normal o -> In (sent (JSON.stringify o)) (fst (click h)).
Proof.
  intros E. rewrite click_run. cbn [fst]. rewrite !in_app_iff. right. left.
  unfold guarded_trace. rewrite E. now left.
Qed.

(** The trace of a run that is answered with a success status. *)
Lemma click_success o r entries samples :
  snd (inputData h) = normal o ->
  respond h (JSON.stringify o) = parsed true r ->
  metrics r = Some entries ->
  plot_data_moic r = Some samples ->
  fst (click h) =
    prelude ++
    [ sent (JSON.stringify o);
      set_textContent metricsOutput (report_text h entries);
      Plotly_newPlot irrPlotDiv [irrTrace r] irrLayout;
      Plotly_newPlot moicPlotDiv [moicTrace (filter above_threshold samples)] moicLayout;
      cleanup ].
Proof.
  intros E1 E2 E3 E4. rewrite click_run. unfold guarded_trace.
  rewrite E1, E2, E3, E4. reflexivity.
Qed.

(** The trace of a run that is answered with a failure status. *)
Lemma click_failure o r :
  snd (inputData h) = normal o ->
  respond h (JSON.stringify o) = parsed false r ->
  fst (click h) =
    prelude ++ sent (JSON.stringify o) :: shown (or_else (error r) fallback) ++ [cleanup].
Proof.
  intros E1 E2. rewrite click_run. unfold guarded_trace. rewrite E1, E2. reflexivity.
Qed.

End Handler.

(** ** The handler on any page *)

Section PageRun.

Variable p : page.
Variable h : host.

(** When the statements before the [try] block complete, the three nodes
    they write to are there and purging a chart node does not throw. *)
Lemma completes_spec :
  completes p = true ->
  node_fault p loadingMessage = None /\
  node_fault p errorMessage = None /\
  node_fault p metricsOutput = None /\
  purge_fault p irrPlotDiv = None /\
  purge_fault p moicPlotDiv = None.
Proof.
  unfold completes, prelude. cbn [forallb raised].
  destruct (node_fault p loadingMessage), (node_fault p errorMessage),
    (node_fault p metricsOutput), (purge_fault p irrPlotDiv),
    (purge_fault p moicPlotDiv); cbn; intros H; try discriminate H.
  repeat split.
Qed.

(** Otherwise the handler stops at the first of them that throws: its
    promise is rejected, and neither the [catch] block nor the [finally]
    block is run. *)
Lemma click_on_stops :
  completes p = false ->
  exists k message,
    (k < 5)%nat /\ click_on p h = (firstn k prelude, thrown message).
Proof.
  unfold completes, prelude, click_on, perform. cbn [forallb raised].
  destruct (node_fault p loadingMessage) as [m|].
  { intros _. exists 0%nat, m. split; [lia | reflexivity]. }
  destruct (node_fault p errorMessage) as [m|].
  { intros _. exists 1%nat, m. split; [lia | reflexivity]. }
  destruct (node_fault p metricsOutput) as [m|].
  { intros _. exists 2%nat, m. split; [lia | reflexivity]. }
  destruct (purge_fault p irrPlotDiv) as [m|].
  { intros _. exists 3%nat, m. split; [lia | reflexivity]. }
  destruct (purge_fault p moicPlotDiv) as [m|].
  { intros _. exists 4%nat, m. split; [lia | reflexivity]. }
  discriminate.
Qed.

(** The [try] and [catch] blocks, outcome by outcome. *)
Lemma guarded_run_on :
  completes p = true ->
  try_catch (attempt_on p h) (report_on p) = (guarded_trace_on p h, normal tt).
Proof.
  intros C. destruct (completes_spec C) as (_ & He & Hm & _ & _).
  unfold guarded_trace_on, attempt_on. rewrite inputData_pair at 1.
  destruct (snd (inputData h)) as [o|e].
  - unfold bind at 1. cbn [snd fst app].
    unfold post. destruct (respond h (JSON.stringify o)) as [e|e|[|] r].
    1,2,4: cbv [bind try_catch tell ret throw report_on perform raised fst snd app
                shown sent]; rewrite He; reflexivity.
    cbv [bind try_catch tell ret throw report_on perform raised fst snd app shown sent
         Object_entries moic_filter].
    rewrite He, Hm.
    destruct (metrics r) as [entries|]; [|reflexivity].
    destruct (newPlot_fault p irrPlotDiv); [reflexivity|].
    destruct (plot_data_moic r) as [l|]; [|reflexivity].
    destruct (newPlot_fault p moicPlotDiv); reflexivity.
  - cbv [bind try_catch tell ret throw report_on perform raised fst snd app shown].
    rewrite He. reflexivity.
Qed.

(** The handler when the statements before the [try] block complete: the
    prelude, the guarded part, the cleanup; its promise is fulfilled. *)
Lemma click_on_run :
  completes p = true ->
  click_on p h = (prelude ++ guarded_trace_on p h ++ [cleanup], normal tt).
Proof.
  intros C. destruct (completes_spec C) as (Hl & He & Hm & Hi & Hc).
  unfold click_on. rewrite (guarded_run_on C).
  unfold perform. cbn [raised]. rewrite Hl, He, Hm, Hi, Hc. reflexivity.
Qed.

Lemma guarded_quiet_on : filter hides_loading (guarded_trace_on p h) = [].
Proof.
  unfold guarded_trace_on.
  destruct (snd (inputData h)) as [o|e]; [|reflexivity].
  destruct (respond h (JSON.stringify o)) as [e|e|[|] r]; try reflexivity.
  destruct (metrics r); [|reflexivity].
  destruct (newPlot_fault p irrPlotDiv); [reflexivity|].
  destruct (plot_data_moic r); [|reflexivity].
  destruct (newPlot_fault p moicPlotDiv); reflexivity.
Qed.

(** On a page where drawing a chart does not throw, the guarded part is
    the one of [click]. *)
Lemma guarded_trace_on_drawing :
  newPlot_fault p irrPlotDiv = None ->
  newPlot_fault p moicPlotDiv = None ->
  guarded_trace_on p h = guarded_trace h.
Proof.
  intros Hi Hm. unfold guarded_trace_on, guarded_trace. rewrite Hi, Hm. reflexivity.
Qed.

(** On a page where no statement throws, the handler is [click]. *)
Lemma click_on_sound :
  (forall e, raised p e = None) -> click_on p h = click h.
Proof.
  intros Hnone.
  assert (C : completes p = true).
  { unfold completes. apply forallb_forall. intros e _. now rewrite Hnone. }
  rewrite (click_on_run C), click_run, guarded_trace_on_drawing; [reflexivity| |].
  - exact (Hnone (Plotly_newPlot irrPlotDiv [] irrLayout)).
  - exact (Hnone (Plotly_newPlot moicPlotDiv [] moicLayout)).
Qed.

(** When reading the controls fails or the run does not reach the report,
    the guarded part is the one of [click]: no chart is drawn in it. *)
Lemma guarded_trace_on_unrendered :
  renders h = false -> guarded_trace_on p h = guarded_trace h.
Proof.
  unfold renders, guarded_trace_on, guarded_trace.
  destruct (snd (inputData h)) as [o|e]; [|reflexivity].
  destruct (respond h (JSON.stringify o)) as [e|e|[|] r]; try reflexivity.
  destruct (metrics r); [discriminate | reflexivity].
Qed.

End PageRun.

(** ** The loading indicator *)

(** C4 (amended): in every run in which the five statements before the
    [try] block complete, whatever its outcome (the report is rendered, the
    status is a failure, the transport fails, the body does not parse, a
    control or a part of the results is missing, the charting library throws
    while drawing), the promise of the handler is fulfilled, the loading
    indicator is hidden exactly once, by the [finally] block as the last
    effect of the run, and it is hidden when the run is over, whatever its
    display was before. *)
Theorem loading_hidden_exactly_once (p : page) (h : host) (initial : jstring) :
  completes p = true ->
  snd (click_on p h) = normal tt /\
  List.length (filter hides_loading (fst (click_on p h))) = 1%nat /\
  (exists before,
     fst (click_on p h) = before ++ [cleanup] /\ filter hides_loading before = []) /\
  display_after loadingMessage initial (fst (click_on p h)) = lit "none".
Proof.
  intros C. rewrite (click_on_run p h C). cbn [fst snd]. repeat split.
  - rewrite !filter_app, guarded_quiet_on. reflexivity.
  - exists (prelude ++ guarded_trace_on p h). split.
    + now rewrite <- app_assoc.
    + rewrite filter_app, guarded_quiet_on. reflexivity.
  - unfold display_after. rewrite app_assoc, fold_left_app. reflexivity.
Qed.

(** On a page whose charting library throws while drawing, the error of the
    library is shown and the loading indicator is hidden. *)
Lemma loading_hidden_exactly_once_witness :
  completes without_drawing = true /\
  snd (click_on without_drawing host_ok) = normal tt /\
  List.length (filter hides_loading (fst (click_on without_drawing host_ok))) = 1%nat /\
  display_after loadingMessage (lit "block") (fst (click_on without_drawing host_ok)) =
    lit "none".
Proof.
  assert (C : completes without_drawing = true) by reflexivity.
  split; [exact C|].
  destruct (loading_hidden_exactly_once without_drawing host_ok (lit "block") C)
    as (H1 & H2 & _ & H4).
  split; [exact H1|]. split; [exact H2 | exact H4].
Defined.

(** On a page whose charting library is not loaded, the fourth statement
    of the handler throws before the [try] block is entered: the promise of
    the handler is rejected, the loading indicator is shown and never hidden,
    and the error region stays hidden. *)
Lemma loading_left_visible_without_library :
  click_on without_library host_ok =
    ([ set_display loadingMessage (lit "block");
       set_display errorMessage (lit "none");
       set_textContent metricsOutput [] ],
     thrown (lit "Plotly is not defined")) /\
  List.length (filter hides_loading (fst (click_on without_library host_ok))) = 0%nat /\
  display_after loadingMessage (lit "none") (fst (click_on without_library host_ok)) =
    lit "block" /\
  display_after errorMessage (lit "none") (fst (click_on without_library host_ok)) =
    lit "none".
Proof. repeat split; vm_compute; reflexivity. Qed.

(** ** The error region *)

(** C3 (amended): when the status is a failure, the error region shows
    [Error: ] followed by the [error] string of the body when that string is
    not empty, and [Error: An unknown error occurred] when the body has no
    [error] or an empty one; the region is made visible. *)
Theorem failure_message_displayed (h : host) (o : list (jstring * float))
    (r : results) (initial : jstring) :
  snd (inputData h) = normal o ->
  respond h (JSON.stringify o) = parsed false r ->
  (forall s, error r = Some s -> s <> [] ->
     textContent_after errorMessage initial (fst (click h)) = lit "Error: " ++ s) /\
  (error r = None \/ error r = Some [] ->
     textContent_after errorMessage initial (fst (click h)) =
       lit "Error: An unknown error occurred") /\
  display_after errorMessage initial (fst (click h)) = lit "block".
Proof.
  intros E1 E2. rewrite (click_failure h o r E1 E2).
  assert (T : textContent_after errorMessage initial
                (prelude ++ sent (JSON.stringify o) ::
                 shown (or_else (error r) fallback) ++ [cleanup]) =
              lit "Error: " ++ or_else (error r) fallback) by reflexivity.
  rewrite T. repeat split.
  - intros s Es Hs. rewrite Es. destruct s; [contradiction|reflexivity].
  - intros [-> | ->]; reflexivity.
Qed.

Lemma failure_message_displayed_witness :
  snd (inputData host_bad_input) = normal (gathered host_bad_input) /\
  textContent_after errorMessage [] (fst (click host_bad_input)) = lit "Error: bad input".
Proof.
  assert (E : snd (inputData host_bad_input) = normal (gathered host_bad_input))
    by (vm_compute; reflexivity).
  split; [exact E|].
  apply (proj1 (failure_message_displayed host_bad_input (gathered host_bad_input)
                  (failure_body (Some (lit "bad input"))) [] E eq_refl)
           (lit "bad input") eq_refl).
  discriminate.
Defined.

(** An empty [error] string is replaced by the fallback message. *)
Lemma empty_error_shows_fallback :
  respond host_empty_error (JSON.stringify (gathered host_empty_error)) =
    parsed false (failure_body (Some [])) /\
  textContent_after errorMessage [] (fst (click host_empty_error)) =
    lit "Error: An unknown error occurred" /\
  textContent_after errorMessage [] (fst (click host_empty_error)) <> lit "Error: " ++ [].
Proof.
  split; [reflexivity|]. vm_compute. split; [reflexivity | discriminate].
Qed.

(** ** The metrics report *)

Section Report.

Variable h : host.

Lemma fold_append {A} (g : A -> jstring) (l : list A) (acc : jstring) :
  fold_left (fun text a => text ++ g a) l acc =
  acc ++ fold_left (fun text a => text ++ g a) l [].
Proof.
  revert acc. induction l as [|a l IH]; intros acc; simpl.
  - now rewrite app_nil_r.
  - rewrite (IH (acc ++ g a)), (IH (g a)). now rewrite app_assoc.
Qed.

Lemma metricsText_cons key value entries :
  metricsText h ((key, value) :: entries) = format_entry h key value ++ metricsText h entries.
Proof. unfold metricsText. simpl fold_left. now rewrite fold_append. Qed.

Lemma metricsText_app a b : metricsText h (a ++ b) = metricsText h a ++ metricsText h b.
Proof.
  induction a as [|[key value] a IH]; [reflexivity|].
  simpl app. now rewrite !metricsText_cons, IH, app_assoc.
Qed.

(** What is appended for an entry is a part of the text. *)
Lemma metricsText_entry key value entries :
  In (key, value) entries ->
  exists a b, metricsText h entries = a ++ format_entry h key value ++ b.
Proof.
  intros Hin. destruct (in_split _ _ Hin) as (pre & post & ->).
  exists (metricsText h pre), (metricsText h post).
  now rewrite metricsText_app, metricsText_cons.
Qed.

(** A solid part of what is appended for an entry is a part of the report. *)
Lemma report_includes key value entries pre mid post :
  In (key, value) entries ->
  format_entry h key value = pre ++ mid ++ post ->
  solid mid = true ->
  includes (report_text h entries) mid = true.
Proof.
  intros Hin Hf Hs. destruct (metricsText_entry _ _ _ Hin) as (a & b & E).
  unfold report_text. rewrite E, Hf.
  replace (a ++ (pre ++ mid ++ post) ++ b) with ((a ++ pre) ++ mid ++ (post ++ b))
    by now rewrite <- !app_assoc.
  now apply includes_trim.
Qed.

(** The report node shows the trimmed text when the status is a success and
    the body has its metrics. *)
Lemma rendered_report o r entries initial :
  snd (inputData h) = normal o ->
  respond h (JSON.stringify o) = parsed true r ->
  metrics r = Some entries ->
  textContent_after metricsOutput initial (fst (click h)) = report_text h entries.
Proof.
  intros E1 E2 E3. rewrite click_run. unfold guarded_trace. rewrite E1, E2, E3.
  destruct (plot_data_moic r); reflexivity.
Qed.

End Report.

(** C5 (amended): an entry whose value is the empty string and whose key is
    a single line that neither begins nor ends with white space gives a line
    of the report that is the key and nothing else. *)
Theorem header_on_its_own_line (h : host) (entries : list (jstring * metric))
    (key : jstring) :
  In (key, Str []) entries ->
  solid key = true ->
  single_line key = true ->
  In key (lines (report_text h entries)).
Proof.
  intros Hin Hs Hl. destruct (metricsText_entry h _ _ _ Hin) as (a & b & E).
  unfold report_text. rewrite E.
  change (format_entry h key (Str [])) with ([LF] ++ key ++ [LF]).
  replace (a ++ ([LF] ++ key ++ [LF]) ++ b) with ((a ++ [LF]) ++ key ++ (LF :: b))
    by now rewrite <- !app_assoc.
  rewrite (trim_keep _ _ _ Hs).
  apply line_between; [exact Hl | apply trimStart_before_LF | apply trimEnd_after_LF].
Qed.

Lemma header_on_its_own_line_witness :
  In (lit "--- Returns ---", Str []) sample_entries /\
  In (lit "--- Returns ---")
     (lines (textContent_after metricsOutput [] (fst (click host_ok)))).
Proof.
  assert (Hin : In (lit "--- Returns ---", Str []) sample_entries)
    by (left; reflexivity).
  split; [exact Hin|].
  rewrite (rendered_report host_ok (gathered host_ok) sample_results _ []
             ltac:(vm_compute; reflexivity) eq_refl eq_refl).
  apply (header_on_its_own_line host_ok _ (lit "--- Returns ---") Hin);
    vm_compute; reflexivity.
Defined.

(** A key that begins with a space, in the first entry: [trim] takes the
    space away and no line of the report is the key. *)
Lemma indented_header_loses_its_space :
  textContent_after metricsOutput [] (fst (click host_indented_header)) = lit "Returns" /\
  ~ In (lit " Returns")
      (lines (textContent_after metricsOutput [] (fst (click host_indented_header)))).
Proof.
  vm_compute. split; [reflexivity|]. intros [H|[]]. discriminate.
Qed.

Lemma solid_wrap (c d : code_unit) (s : jstring) :
  isWhiteSpace c = false -> isWhiteSpace d = false -> solid (c :: s ++ [d]) = true.
Proof.
  intros Hc Hd. unfold solid. rewrite Hc.
  change (c :: s ++ [d]) with ((c :: s) ++ [d]). rewrite last_last, Hd. reflexivity.
Qed.

(** The report of the sample host, as the handler renders it. *)
Lemma sample_report (l : Intl.locale) :
  textContent_after metricsOutput []
    (fst (click (sample_host filled (parsed true sample_results) l))) =
  report_text (sample_host filled (parsed true sample_results) l) sample_entries.
Proof.
  apply (rendered_report _ (gathered host_ok) sample_results); [|reflexivity..].
  vm_compute. reflexivity.
Qed.

(** C6 (amended): for a numeric entry whose key contains [IRR] or begins
    with [P(], the line appended is the padded key, the separator, the value
    times 100 as [toFixed(2)] writes it and a percent sign, and the report
    shows it; when the product is finite and below [10^21] in magnitude it is
    written with exactly two fraction digits; the value 0.1234 is shown as
    [12.34%]. *)
Theorem percentage_line (h : host) (entries : list (jstring * metric))
    (key : jstring) (v : float) :
  In (key, Num v) entries ->
  includes key (lit "IRR") = true \/ startsWith key (lit "P(") = true ->
  format_entry h key (Num v) =
    padEnd key 32 ++ lit ": " ++ toFixed (v * 100) 2 ++ lit "%" ++ [LF] /\
  includes (report_text h entries) (lit ": " ++ toFixed (v * 100) 2 ++ lit "%") = true /\
  (below_1e21 (v * 100) = true ->
   exists sign int frac,
     toFixed (v * 100) 2 = sign ++ int ++ lit "." ++ frac /\
     (sign = [] \/ sign = lit "-") /\
     int <> [] /\ List.length frac = 2%nat /\ digits_only int /\ digits_only frac) /\
  (v = 0.1234%float -> includes (report_text h entries) (lit "12.34%") = true).
Proof.
  intros Hin Hkey.
  assert (Hc : includes key (lit "IRR") || includes key (lit "P(") = true).
  { destruct Hkey as [H|H]; [rewrite H; reflexivity|].
    rewrite (startsWith_includes _ _ H). apply orb_true_r. }
  assert (Hf : format_entry h key (Num v) =
               padEnd key 32 ++ lit ": " ++ toFixed (v * 100) 2 ++ lit "%" ++ [LF]).
  { unfold format_entry. rewrite Hc. reflexivity. }
  split; [exact Hf|]. split; [|split].
  - apply (report_includes h key (Num v) entries (padEnd key 32) _ [LF] Hin).
    + rewrite Hf. now rewrite <- !app_assoc.
    + apply (solid_wrap 58%N 37%N (32%N :: toFixed (v * 100) 2)); reflexivity.
  - apply toFixed_two_places.
  - intros ->.
    apply (report_includes h key (Num 0.1234) entries (padEnd key 32 ++ lit ": ") _ [LF] Hin).
    + rewrite Hf. change (toFixed (0.1234 * 100) 2) with (lit "12.34").
      now rewrite <- !app_assoc.
    + reflexivity.
Qed.

Lemma percentage_line_witness :
  In (lit "Mean IRR", Num 0.1234%float) sample_entries /\
  includes (lit "Mean IRR") (lit "IRR") = true /\
  below_1e21 (0.1234 * 100) = true /\
  includes (textContent_after metricsOutput [] (fst (click host_ok))) (lit "12.34%") = true.
Proof.
  assert (Hin : In (lit "Mean IRR", Num 0.1234%float) sample_entries)
    by (right; left; reflexivity).
  split; [exact Hin|]. split; [reflexivity|]. split; [reflexivity|].
  unfold host_ok. rewrite sample_report.
  exact (proj2 (proj2 (proj2 (percentage_line host_ok sample_entries (lit "Mean IRR")
                                0.1234%float Hin (or_introl eq_refl)))) eq_refl).
Defined.

(** A return of 1e20: a hundred times it is 1e22, which [toFixed] writes
    in exponent notation, with no fraction digits. *)
Lemma huge_percentage_has_no_fraction_digits :
  includes (lit "Upside IRR") (lit "IRR") = true /\
  textContent_after metricsOutput [] (fst (click host_huge_return)) =
    padEnd (lit "Upside IRR") 32 ++ lit ": 1e+22%" /\
  includes (textContent_after metricsOutput [] (fst (click host_huge_return))) (lit ".") = false.
Proof.
  vm_compute. repeat split; reflexivity.
Qed.

(** C7 (amended): for a numeric entry whose key contains [MOIC] and neither
    [IRR] nor [P(], the line appended is the padded key, the separator, the
    value as [toFixed(2)] writes it and an [x], and the report shows it; when
    the value is finite and below [10^21] in magnitude it is written with
    exactly two fraction digits; the value 2.5 is shown as [2.50x]. *)
Theorem multiple_line (h : host) (entries : list (jstring * metric))
    (key : jstring) (v : float) :
  In (key, Num v) entries ->
  includes key (lit "MOIC") = true ->
  includes key (lit "IRR") = false ->
  includes key (lit "P(") = false ->
  format_entry h key (Num v) =
    padEnd key 32 ++ lit ": " ++ toFixed v 2 ++ lit "x" ++ [LF] /\
  includes (report_text h entries) (lit ": " ++ toFixed v 2 ++ lit "x") = true /\
  (below_1e21 v = true ->
   exists sign int frac,
     toFixed v 2 = sign ++ int ++ lit "." ++ frac /\
     (sign = [] \/ sign = lit "-") /\
     int <> [] /\ List.length frac = 2%nat /\ digits_only int /\ digits_only frac) /\
  (v = 2.5%float -> includes (report_text h entries) (lit "2.50x") = true).
Proof.
  intros Hin Hm Hi Hp.
  assert (Hf : format_entry h key (Num v) =
               padEnd key 32 ++ lit ": " ++ toFixed v 2 ++ lit "x" ++ [LF]).
  { unfold format_entry. rewrite Hi, Hp, Hm. reflexivity. }
  split; [exact Hf|]. split; [|split].
  - apply (report_includes h key (Num v) entries (padEnd key 32) _ [LF] Hin).
    + rewrite Hf. now rewrite <- !app_assoc.
    + apply (solid_wrap 58%N 120%N (32%N :: toFixed v 2)); reflexivity.
  - apply toFixed_two_places.
  - intros ->.
    apply (report_includes h key (Num 2.5) entries (padEnd key 32 ++ lit ": ") _ [LF] Hin).
    + rewrite Hf. change (toFixed 2.5 2) with (lit "2.50").
      now rewrite <- !app_assoc.
    + reflexivity.
Qed.

Lemma multiple_line_witness :
  In (lit "Median MOIC", Num 2.5%float) sample_entries /\
  includes (lit "Median MOIC") (lit "MOIC") = true /\
  includes (lit "Median MOIC") (lit "IRR") = false /\
  includes (lit "Median MOIC") (lit "P(") = false /\
  below_1e21 2.5 = true /\
  includes (textContent_after metricsOutput [] (fst (click host_ok))) (lit "2.50x") = true.
Proof.
  assert (Hin : In (lit "Median MOIC", Num 2.5%float) sample_entries)
    by (right; right; left; reflexivity).
  split; [exact Hin|]. repeat (split; [reflexivity|]).
  unfold host_ok. rewrite sample_report.
  exact (proj2 (proj2 (proj2 (multiple_line host_ok sample_entries (lit "Median MOIC")
                                2.5%float Hin eq_refl eq_refl eq_refl))) eq_refl).
Defined.

(** A probability of a multiple: the key contains [MOIC] and is formatted
    as a percentage.  A multiple of 1e21 is written in exponent notation. *)
Lemma multiple_depends_on_key_and_magnitude :
  (In (lit "P(MOIC > 3x)", Num 0.25%float) sample_entries /\
   includes (lit "P(MOIC > 3x)") (lit "MOIC") = true /\
   format_entry host_ok (lit "P(MOIC > 3x)") (Num 0.25) =
     padEnd (lit "P(MOIC > 3x)") 32 ++ lit ": 25.00%" ++ [LF] /\
   includes (textContent_after metricsOutput [] (fst (click host_ok))) (lit "0.25x") = false) /\
  (includes (lit "Upside MOIC") (lit "MOIC") = true /\
   textContent_after metricsOutput [] (fst (click host_huge_multiple)) =
     padEnd (lit "Upside MOIC") 32 ++ lit ": 1e+21x").
Proof.
  split.
  - split; [do 4 right; left; reflexivity|]. vm_compute. repeat split; reflexivity.
  - vm_compute. split; reflexivity.
Qed.

(** C8 (amended): for a numeric entry whose key contains [Val] or [Proceeds]
    and none of [IRR], [P(] and [MOIC], the line appended is the padded key,
    the separator, a dollar sign and the value rounded to an integer in the
    number format of the default locale of the host; with the conventions of
    en-US the digits are grouped by three and 1234567.8 is shown as
    [$1,234,568]. *)
Theorem currency_line (h : host) (entries : list (jstring * metric))
    (key : jstring) (v : float) :
  In (key, Num v) entries ->
  includes key (lit "Val") = true \/ includes key (lit "Proceeds") = true ->
  includes key (lit "IRR") = false ->
  includes key (lit "P(") = false ->
  includes key (lit "MOIC") = false ->
  format_entry h key (Num v) =
    padEnd key 32 ++ lit ": $" ++ toLocaleString h (Math_round v) ++ [LF] /\
  (solid (toLocaleString h (Math_round v)) = true ->
   includes (report_text h entries) (lit ": $" ++ toLocaleString h (Math_round v)) = true) /\
  (toLocaleString h (Math_round v) = Intl.format Intl.en_US (Math_round v) ->
   v = 1234567.8%float ->
   includes (report_text h entries) (lit "$1,234,568") = true).
Proof.
  intros Hin Hkey Hi Hp Hm.
  assert (Hc : includes key (lit "Val") || includes key (lit "Proceeds") = true).
  { destruct Hkey as [H|H]; rewrite H; [reflexivity | apply orb_true_r]. }
  assert (Hf : format_entry h key (Num v) =
               padEnd key 32 ++ lit ": $" ++ toLocaleString h (Math_round v) ++ [LF]).
  { unfold format_entry. rewrite Hi, Hp, Hm, Hc. reflexivity. }
  split; [exact Hf|]. split.
  - intros Hs. destruct (solid_ends _ Hs) as [_ (s & d & Es & Hd)].
    apply (report_includes h key (Num v) entries (padEnd key 32) _ [LF] Hin).
    + rewrite Hf. now rewrite <- !app_assoc.
    + rewrite Es. change (lit ": $" ++ s ++ [d]) with (58%N :: (32%N :: 36%N :: s) ++ [d]).
      apply solid_wrap; [reflexivity | exact Hd].
  - intros Hl ->.
    apply (report_includes h key (Num 1234567.8) entries (padEnd key 32 ++ lit ": ") _ [LF] Hin).
    + rewrite Hf, Hl.
      change (Intl.format Intl.en_US (Math_round 1234567.8)) with (lit "1,234,568").
      change (lit ": $") with (lit ": " ++ lit "$").
      change (lit "$1,234,568") with (lit "$" ++ lit "1,234,568").
      now rewrite <- !app_assoc.
    + reflexivity.
Qed.

Lemma currency_line_witness :
  In (lit "Exit Val", Num 1234567.8%float) sample_entries /\
  includes (lit "Exit Val") (lit "Val") = true /\
  includes (lit "Exit Val") (lit "IRR") = false /\
  includes (lit "Exit Val") (lit "P(") = false /\
  includes (lit "Exit Val") (lit "MOIC") = false /\
  includes (textContent_after metricsOutput [] (fst (click host_ok))) (lit "$1,234,568") = true.
Proof.
  assert (Hin : In (lit "Exit Val", Num 1234567.8%float) sample_entries)
    by (do 3 right; left; reflexivity).
  split; [exact Hin|]. repeat (split; [reflexivity|]).
  unfold host_ok. rewrite sample_report.
  exact (proj2 (proj2 (currency_line host_ok sample_entries (lit "Exit Val") 1234567.8%float
                         Hin (or_introl eq_refl) eq_refl eq_refl eq_refl)) eq_refl eq_refl).
Defined.

(** A probability of proceeds is formatted as a percentage, and a host
    with German conventions groups the digits with full stops. *)
Lemma currency_depends_on_key_and_locale :
  (In (lit "P(Proceeds > 0)", Num 0.75%float) sample_entries /\
   includes (lit "P(Proceeds > 0)") (lit "Proceeds") = true /\
   format_entry host_ok (lit "P(Proceeds > 0)") (Num 0.75) =
     padEnd (lit "P(Proceeds > 0)") 32 ++ lit ": 75.00%" ++ [LF]) /\
  (In (lit "Exit Val", Num 1234567.8%float) sample_entries /\
   includes (textContent_after metricsOutput [] (fst (click host_german)))
     (lit "$1.234.568") = true /\
   includes (textContent_after metricsOutput [] (fst (click host_german)))
     (lit "$1,234,568") = false).
Proof.
  split.
  - split; [do 5 right; left; reflexivity|]. vm_compute. split; reflexivity.
  - split; [do 3 right; left; reflexivity|]. vm_compute. split; reflexivity.
Qed.

(** C10: the branch that formats an entry is the first, in the order
    header, verbatim string, percentage, multiple, currency, plain number,
    whose condition holds; what is appended is what that branch gives.  A key
    that contains both [MOIC] and [Val] is formatted as a multiple. *)
Theorem formatting_precedence (h : host) :
  (forall key value,
     exists b before after,
       precedence = before ++ b :: after /\
       applies b key value = true /\
       (forall b', In b' before -> applies b' key value = false) /\
       selected key value = Some b /\
       render_as h b key value = Some (format_entry h key value)) /\
  (forall v, format_entry h (lit "MOIC Val") (Num v) =
             padEnd (lit "MOIC Val") 32 ++ lit ": " ++ toFixed v 2 ++ lit "x" ++ [LF]).
Proof.
  split; [|reflexivity].
  assert (R : forall key text tail,
             Some (labelled key (text ++ tail)) =
             Some (padEnd key 32 ++ lit ": " ++ text ++ tail ++ [LF])).
  { intros. unfold labelled. now rewrite <- !app_assoc. }
  intros key [v|[|c s]].
  - unfold selected, format_entry. cbn [find precedence applies render_as].
    destruct (includes key (lit "IRR") || includes key (lit "P(")) eqn:E1;
      [|destruct (includes key (lit "MOIC")) eqn:E2;
        [|destruct (includes key (lit "Val") || includes key (lit "Proceeds")) eqn:E3]].
    + exists percentage, [header; verbatim], [multiple; currency; plain].
      repeat split; try assumption. 2: apply R.
      intros b' [<-|[<-|[]]]; reflexivity.
    + exists multiple, [header; verbatim; percentage], [currency; plain].
      repeat split; try assumption. 2: apply R.
      intros b' [<-|[<-|[<-|[]]]]; try reflexivity; try assumption.
    + exists currency, [header; verbatim; percentage; multiple], [plain].
      repeat split; try assumption.
      intros b' [<-|[<-|[<-|[<-|[]]]]]; try reflexivity; try assumption.
    + exists plain, [header; verbatim; percentage; multiple; currency], [].
      repeat split; try assumption.
      intros b' [<-|[<-|[<-|[<-|[<-|[]]]]]]; try reflexivity; try assumption.
  - exists header, [], [verbatim; percentage; multiple; currency; plain].
    repeat split. intros b' [].
  - exists verbatim, [header], [percentage; multiple; currency; plain].
    repeat split. intros b' [<-|[]]. reflexivity.
Qed.

(** ** The histogram of the multiples *)

Lemma filter_subsequence {A} (f : A -> bool) (l : list A) : subsequence (filter f l) l.
Proof.
  induction l as [|a l IH]; simpl; [constructor|].
  destruct (f a); now constructor.
Qed.

Lemma subsequence_filter {A} (f : A -> bool) (l' l : list A) :
  subsequence l' l -> Forall (fun a => f a = true) l' -> subsequence l' (filter f l).
Proof.
  induction 1 as [|a l1 l2 _ IH|a l1 l2 _ IH]; intros Hall; simpl.
  - constructor.
  - destruct (f a); [apply subsequence_skip|]; now apply IH.
  - inversion Hall as [|? ? Ha Hrest]; subst. rewrite Ha.
    apply subsequence_keep. now apply IH.
Qed.

(** C9: when the report is rendered, the only chart drawn in the node of
    the multiples is one histogram whose [x] is the sequence of the samples
    that are greater than 0.01: a subsequence of the samples, made of the
    samples above the threshold, and the longest one; from 0.001, 0.02, 5, 10
    it keeps 0.02, 5, 10.  On any page, a chart drawn in that node has that
    sequence for its [x]. *)
Theorem moic_histogram_input (h : host) (o : list (jstring * float)) (r : results)
    (entries : list (jstring * metric)) (samples : list float) :
  snd (inputData h) = normal o ->
  respond h (JSON.stringify o) = parsed true r ->
  metrics r = Some entries ->
  plot_data_moic r = Some samples ->
  (forall data l,
     In (Plotly_newPlot moicPlotDiv data l) (fst (click h)) <->
     data = [ {| trace_x := Some (filter (fun m => (0.01 <? m)%float) samples);
                 trace_type := lit "histogram";
                 trace_nbinsx := None;
                 trace_name := lit "MOIC";
                 trace_marker_color := lit "#28a745" |} ] /\
     l = moicLayout) /\
  subsequence (filter above_threshold samples) samples /\
  (forall m, In m (filter above_threshold samples) <->
             In m samples /\ (0.01 <? m)%float = true) /\
  (forall l', subsequence l' samples ->
              Forall (fun m => (0.01 <? m)%float = true) l' ->
              subsequence l' (filter above_threshold samples)) /\
  (samples = [0.001; 0.02; 5; 10]%float ->
   filter above_threshold samples = [0.02; 5; 10]%float) /\
  (forall p data l,
     In (Plotly_newPlot moicPlotDiv data l) (fst (click_on p h)) ->
     map trace_x data = [Some (filter (fun m => (0.01 <? m)%float) samples)]).
Proof.
  intros E1 E2 E3 E4. rewrite (click_success h o r entries samples E1 E2 E3 E4).
  split; [|split; [|split; [|split; [|split]]]].
  6: { intros p data l. destruct (completes p) eqn:C.
       - rewrite (click_on_run p h C). unfold guarded_trace_on.
         rewrite E1, E2, E3, E4. cbn [fst]. rewrite !in_app_iff.
         intros [Hp|[Hg|Hc]].
         + cbn in Hp. none_of Hp.
         + destruct Hg as [Hg|[Hg|Hg]]; try discriminate.
           destruct (newPlot_fault p irrPlotDiv); [cbn in Hg; none_of Hg|].
           destruct Hg as [Hg|Hg]; [discriminate|].
           destruct (newPlot_fault p moicPlotDiv); cbn in Hg; [none_of Hg|].
           destruct Hg as [Hg|[]]. now injection Hg as <- <-.
         + cbn in Hc. none_of Hc.
       - destruct (click_on_stops p h C) as (k & m & _ & ->). cbn [fst].
         do 5 (destruct k as [|k]; [intros Hp; cbn in Hp; none_of Hp|]).
         destruct k; intros Hp; cbn in Hp; none_of Hp. }
  - intros data l. rewrite in_app_iff. split.
    + intros [Hp|Hg].
      * cbn in Hp. none_of Hp.
      * cbn in Hg. destruct Hg as [Hg|[Hg|[Hg|[Hg|[Hg|[]]]]]]; try discriminate.
        now injection Hg as <- <-.
    + intros [-> ->]. right. cbn. tauto.
  - apply filter_subsequence.
  - intros m. apply filter_In.
  - intros l' Hsub Hall. apply subsequence_filter; assumption.
  - intros ->. reflexivity.
Qed.

Lemma moic_histogram_input_witness :
  snd (inputData host_ok) = normal (gathered host_ok) /\
  plot_data_moic sample_results = Some [0.001; 0.02; 5; 10]%float /\
  In (Plotly_newPlot moicPlotDiv
        [ {| trace_x := Some [0.02; 5; 10]%float;
             trace_type := lit "histogram";
             trace_nbinsx := None;
             trace_name := lit "MOIC";
             trace_marker_color := lit "#28a745" |} ]
        moicLayout)
     (fst (click host_ok)).
Proof.
  assert (E : snd (inputData host_ok) = normal (gathered host_ok))
    by (vm_compute; reflexivity).
  split; [exact E|]. split; [reflexivity|].
  apply (proj1 (moic_histogram_input host_ok (gathered host_ok) sample_results
                  sample_entries [0.001; 0.02; 5; 10]%float E eq_refl eq_refl eq_refl)).
  split; reflexivity.
Defined.

(** ** The request *)

Lemma startsWith_app_r (s t b : jstring) :
  startsWith s t = true -> startsWith (s ++ b) t = true.
Proof.
  revert s. induction t as [|c t IH]; intros [|d s]; simpl; try easy.
  destruct (N.eqb c d); [apply IH | easy].
Qed.

Lemma includes_app_r (s t b : jstring) : includes s t = true -> includes (s ++ b) t = true.
Proof.
  induction s as [|c s IH]; rewrite (includes_unfold _ t), (includes_unfold (_ ++ b) t).
  - rewrite orb_false_r. intros H. rewrite (startsWith_app_r _ _ b H). reflexivity.
  - change ((c :: s) ++ b) with (c :: s ++ b). cbv iota.
    rewrite !orb_true_iff. intros [H|H].
    + left. exact (startsWith_app_r _ _ b H).
    + right. now apply IH.
Qed.

Lemma includes_app_l (a s t : jstring) : includes s t = true -> includes (a ++ s) t = true.
Proof.
  intros H. induction a as [|c a IH]; [exact H|].
  rewrite includes_unfold. change ((c :: a) ++ s) with (c :: a ++ s). cbv iota.
  rewrite IH. apply orb_true_r.
Qed.

Lemma Forall2_In_l {A B} (R : A -> B -> Prop) (l1 : list A) (l2 : list B) (a : A) :
  Forall2 R l1 l2 -> In a l1 -> exists b, In b l2 /\ R a b.
Proof.
  induction 1 as [|x y l1 l2 Hxy _ IH]; [contradiction|].
  intros [<-|Hin].
  - exists y. split; [now left | exact Hxy].
  - destruct (IH Hin) as (b & Hb & Hab). exists b. split; [now right | exact Hab].
Qed.

Lemma Forall2_In_r {A B} (R : A -> B -> Prop) (l1 : list A) (l2 : list B) (b : B) :
  Forall2 R l1 l2 -> In b l2 -> exists a, In a l1 /\ R a b.
Proof.
  induction 1 as [|x y l1 l2 Hxy _ IH]; [contradiction|].
  intros [<-|Hin].
  - exists x. split; [now left | exact Hxy].
  - destruct (IH Hin) as (a & Ha & Hab). exists a. split; [now right | exact Hab].
Qed.

(** The keys of the object gathered are the keys of the rows. *)
Lemma gather_keys (h : host) fields o :
  snd (gather h fields) = normal o ->
  map fst o = map (fun row => lit (fst (fst row))) fields.
Proof.
  intros E. apply gather_normal in E.
  induction E as [|row kv fields o (v & _ & ->) _ IH]; [reflexivity|].
  simpl. now rewrite IH.
Qed.

(** [parseInt] gives NaN or the Number of an integer. *)
Lemma parseInt_integral (s : jstring) : parseInt s = nan \/ integral (parseInt s).
Proof.
  unfold parseInt. destruct (strip_sign (trimStart s)) as [neg s1]. cbv zeta.
  match goal with
  | |- context [match ?m with Some _ => _ | None => _ end] => destruct m as [[|p]|]
  end.
  - right. destruct neg; [now left|]. right. now exists 0%Z.
  - right. right. eexists. reflexivity.
  - now left.
Qed.

(** C1 (amended): a request that is sent is a POST of JSON whose body is the
    serialisation of an object with exactly the 25 keys of a
    SimulationRequest, from [failure_rate_pct] to [num_simulations], in that
    order; the values of [rounds_min], [rounds_max] and [num_simulations] are
    NaN, which is serialised as [null], or Numbers of integers. *)
Theorem request_body_keys (h : host) (url method content_type body : jstring) :
  In (fetch url method content_type body) (fst (click h)) ->
  url = API_URL /\ method = lit "POST" /\ content_type = lit "application/json" /\
  exists o,
    body = JSON.stringify o /\
    map fst o = SimulationRequest_keys /\
    List.length o = 25%nat /\
    forall key v, In key integer_keys -> In (key, v) o ->
                  (v = nan /\ JSON.serialize_number v = lit "null") \/ integral v.
Proof.
  intros Hin. destruct (fetch_in_click h _ _ _ _ Hin) as (o & E & Hs).
  injection Hs as -> -> -> ->. repeat (split; [reflexivity|]).
  exists o. split; [reflexivity|].
  assert (Hk : map fst o = SimulationRequest_keys) by exact (gather_keys h _ o E).
  split; [exact Hk|]. split.
  - rewrite <- (length_map fst), Hk. reflexivity.
  - intros key v Hkey Hkv.
    destruct (Forall2_In_r _ _ _ _ (gather_normal h _ o E) Hkv)
      as (row & Hrow & v0 & _ & Hpair).
    unfold request_fields in Hrow. cbn [In] in Hrow.
    repeat (destruct Hrow as [<-|Hrow];
            [cbn [fst snd] in Hpair; injection Hpair as -> ->;
             first [ destruct (parseInt_integral v0) as [Hn|Hi];
                     [left; rewrite Hn; split; reflexivity | right; exact Hi]
                   | exfalso; vm_compute in Hkey;
                     repeat (destruct Hkey as [Hkey|Hkey]; [discriminate|]);
                     exact Hkey ]
            |]).
    contradiction.
Qed.

Lemma request_body_keys_witness :
  In (sent (JSON.stringify (gathered host_ok))) (fst (click host_ok)) /\
  (exists o,
     JSON.stringify (gathered host_ok) = JSON.stringify o /\
     map fst o = SimulationRequest_keys /\
     List.length o = 25%nat /\
     forall key v, In key integer_keys -> In (key, v) o ->
                   (v = nan /\ JSON.serialize_number v = lit "null") \/ integral v) /\
  includes (JSON.stringify (gathered host_ok))
    (JSON.QuoteJSONString (lit "dil_max") ++ lit ":10000.7,") = true /\
  includes (JSON.stringify (gathered host_ok))
    (JSON.QuoteJSONString (lit "rounds_min") ++ lit ":10000,") = true.
Proof.
  assert (Hin : In (sent (JSON.stringify (gathered host_ok))) (fst (click host_ok))).
  { apply click_sends. vm_compute. reflexivity. }
  split; [exact Hin|]. split.
  - exact (proj2 (proj2 (proj2 (request_body_keys host_ok _ _ _ _ Hin)))).
  - vm_compute. split; reflexivity.
Defined.

(** The request of the sample host: its body has 25 members, not 24. *)
Lemma request_has_25_members :
  nth_error (fst (click host_ok)) 5 = Some (sent (JSON.stringify (gathered host_ok))) /\
  List.length (gathered host_ok) = 25%nat /\
  count_occ N.eq_dec (JSON.stringify (gathered host_ok)) 58%N = 25%nat /\
  List.length SimulationRequest_keys <> 24%nat.
Proof.
  vm_compute. repeat split; try reflexivity. discriminate.
Qed.




(** * Further properties of the handler *)

(** ** What a run leaves behind *)

Section Outcomes.

Variable h : host.

(** The trace of a run in which reading the controls fails. *)
Lemma click_aborted message :
  snd (inputData h) = thrown message ->
  fst (click h) = prelude ++ shown message ++ [cleanup].
Proof.
  intros E. rewrite click_run. unfold guarded_trace. rewrite E. reflexivity.
Qed.

(** Reading the controls stops at the first one that is missing. *)
Lemma gather_first_missing pre key id parse post :
  (forall k i p, In (k, i, p) pre -> control_value h (lit i) <> None) ->
  control_value h (lit id) = None ->
  snd (gather h (pre ++ (key, id, parse) :: post)) =
    thrown (TypeError_message h (value_of_null (lit id))).
Proof.
  intros Hpre Hid. induction pre as [|[[k i] p] pre IH]; simpl.
  - unfold read. rewrite Hid. reflexivity.
  - unfold read. destruct (control_value h (lit i)) as [v|] eqn:Ev.
    + assert (IH' := IH (fun k' i' p' H => Hpre k' i' p' (or_intror H))).
      unfold bind at 1. cbn [snd fst ret app].
      rewrite (bind_thrown _ _ _ IH'). reflexivity.
    + exfalso. apply (Hpre k i p); [now left | exact Ev].
Qed.


(** A member of the object gathered is a part of the body that is sent. *)
Lemma field_in_body key id parse v :
  In (key, id, parse) request_fields ->
  (forall k i p, In (k, i, p) request_fields -> control_value h (lit i) <> None) ->
  control_value h (lit id) = Some v ->
  exists o,
    snd (inputData h) = normal o /\
    In (lit key, parse v) o /\
    In (sent (JSON.stringify o)) (fst (click h)) /\
    includes (JSON.stringify o) (JSON.member (lit key, parse v)) = true.
Proof.
  intros Hrow Hall Hv.
  destruct (gather_total h request_fields Hall) as [o E].
  exists o. split; [exact E|].
  destruct (Forall2_In_l _ _ _ _ (gather_normal h _ o E) Hrow) as (kv & Hkv & v' & Hv' & ->).
  cbn [fst snd] in Hv', Hkv. rewrite Hv in Hv'. injection Hv' as <-.
  split; [exact Hkv|]. split; [now apply click_sends|].
  unfold JSON.stringify. apply includes_app_l, includes_app_r.
  apply includes_join. now apply (in_map JSON.member).
Qed.

End Outcomes.

(** Before the [try] block no request is sent and no chart is drawn. *)
Lemma prelude_prefix_silent (k : nat) :
  filter is_fetch (firstn k prelude) = [] /\ filter is_newPlot (firstn k prelude) = [].
Proof.
  do 5 (destruct k as [|k]; [split; reflexivity|]). destruct k; split; reflexivity.
Qed.

(** X1: when a control is missing, reading the controls stops there and no
    request is sent, on any page; when the five statements before the [try]
    block complete, the error region shows the message of the TypeError
    raised for the first missing control. *)
Theorem missing_control_aborts (p : page) (h : host)
    (pre post : list (string * string * (jstring -> float)))
    (key id : string) (parse : jstring -> float) (initial : jstring) :
  request_fields = pre ++ (key, id, parse) :: post ->
  (forall k i q, In (k, i, q) pre -> control_value h (lit i) <> None) ->
  control_value h (lit id) = None ->
  filter is_fetch (fst (click_on p h)) = [] /\
  (completes p = true ->
   textContent_after errorMessage initial (fst (click_on p h)) =
     lit "Error: " ++ TypeError_message h (value_of_null (lit id)) /\
   display_after errorMessage initial (fst (click_on p h)) = lit "block").
Proof.
  intros Hsplit Hpre Hid.
  assert (E : snd (inputData h) = thrown (TypeError_message h (value_of_null (lit id)))).
  { unfold inputData. rewrite Hsplit. now apply gather_first_missing. }
  destruct (completes p) eqn:C.
  - rewrite (click_on_run p h C). unfold guarded_trace_on. rewrite E.
    split; [reflexivity|]. intros _. split; reflexivity.
  - destruct (click_on_stops p h C) as (k & m & _ & ->). cbn [fst].
    split; [apply prelude_prefix_silent | discriminate].
Qed.

Lemma missing_control_aborts_witness :
  control_value host_missing_control (lit "failure-rate") = None /\
  completes without_drawing = true /\
  filter is_fetch (fst (click_on without_drawing host_missing_control)) = [] /\
  textContent_after errorMessage [] (fst (click_on without_drawing host_missing_control)) =
    lit "Error: Cannot read properties of null (reading 'value')".
Proof.
  split; [reflexivity|]. split; [reflexivity|].
  destruct (missing_control_aborts without_drawing host_missing_control [] (tl request_fields)
              "failure_rate_pct" "failure-rate" parseFloat [] eq_refl
              (fun k i q (H : In (k, i, q) []) => match H with end) eq_refl)
    as (H1 & H2).
  split; [exact H1 | exact (proj1 (H2 eq_refl))].
Defined.



(** X3: when the request is rejected or the body does not parse, the
    error region shows [Error: ] followed by the message of the rejection. *)
Theorem transport_failure_displayed (h : host) (o : list (jstring * float))
    (message initial : jstring) :
  snd (inputData h) = normal o ->
  respond h (JSON.stringify o) = rejected message \/
  respond h (JSON.stringify o) = unparsable message ->
  textContent_after errorMessage initial (fst (click h)) = lit "Error: " ++ message /\
  display_after errorMessage initial (fst (click h)) = lit "block".
Proof.
  intros E1 E2. rewrite click_run. unfold guarded_trace. rewrite E1.
  destruct E2 as [-> | ->]; split; reflexivity.
Qed.

Lemma transport_failure_displayed_witness :
  snd (inputData host_offline) = normal (gathered host_offline) /\
  textContent_after errorMessage [] (fst (click host_offline)) =
    lit "Error: Failed to fetch".
Proof.
  assert (E : snd (inputData host_offline) = normal (gathered host_offline))
    by (vm_compute; reflexivity).
  split; [exact E|].
  exact (proj1 (transport_failure_displayed host_offline _ (lit "Failed to fetch") []
                  E (or_introl eq_refl))).
Defined.

(** X4: unless the run reaches the rendering of the report (controls all
    there, success status, metrics in the body), no chart is drawn, on any
    page; when the five statements before the [try] block complete, nothing
    of the response is shown: the report is empty, both chart nodes are left
    purged, and the error region is visible with a message. *)
Theorem nothing_rendered_without_metrics (p : page) (h : host) (initial : jstring)
    (chart : option (list trace * layout)) :
  renders h = false ->
  filter is_newPlot (fst (click_on p h)) = [] /\
  (completes p = true ->
   textContent_after metricsOutput initial (fst (click_on p h)) = [] /\
   chart_after irrPlotDiv chart (fst (click_on p h)) = None /\
   chart_after moicPlotDiv chart (fst (click_on p h)) = None /\
   display_after errorMessage initial (fst (click_on p h)) = lit "block" /\
   exists message,
     textContent_after errorMessage initial (fst (click_on p h)) =
       lit "Error: " ++ message).
Proof.
  intros R. destruct (completes p) eqn:C.
  - rewrite (click_on_run p h C), (guarded_trace_on_unrendered p h R).
    revert R. unfold renders, guarded_trace. cbn [fst].
    destruct (snd (inputData h)) as [o|e].
    + destruct (respond h (JSON.stringify o)) as [e|e|[|] r].
      * intros _. repeat split; try reflexivity. now eexists.
      * intros _. repeat split; try reflexivity. now eexists.
      * destruct (metrics r); [discriminate|].
        intros _. repeat split; try reflexivity. now eexists.
      * intros _. repeat split; try reflexivity. now eexists.
    + intros _. repeat split; try reflexivity. now eexists.
  - destruct (click_on_stops p h C) as (k & m & _ & ->). cbn [fst].
    split; [apply prelude_prefix_silent | discriminate].
Qed.

Lemma nothing_rendered_without_metrics_witness :
  renders host_bad_input = false /\
  completes without_drawing = true /\
  filter is_newPlot (fst (click_on without_drawing host_bad_input)) = [] /\
  textContent_after metricsOutput (lit "old report")
    (fst (click_on without_drawing host_bad_input)) = [].
Proof.
  assert (R : renders host_bad_input = false) by (vm_compute; reflexivity).
  split; [exact R|]. split; [reflexivity|].
  destruct (nothing_rendered_without_metrics without_drawing host_bad_input
              (lit "old report") None R) as (H1 & H2).
  split; [exact H1 | exact (proj1 (H2 eq_refl))].
Defined.

(** X5: when the report and both charts are rendered, the error region
    stays hidden and its text is not written, the two charts drawn are the
    IRR one and then the MOIC one, and they replace the charts the nodes
    held. *)
Theorem success_leaves_error_hidden (h : host) (o : list (jstring * float))
    (r : results) (entries : list (jstring * metric)) (samples : list float)
    (initial : jstring) (chart : option (list trace * layout)) :
  snd (inputData h) = normal o ->
  respond h (JSON.stringify o) = parsed true r ->
  metrics r = Some entries ->
  plot_data_moic r = Some samples ->
  display_after errorMessage initial (fst (click h)) = lit "none" /\
  textContent_after errorMessage initial (fst (click h)) = initial /\
  filter is_newPlot (fst (click h)) =
    [ Plotly_newPlot irrPlotDiv [irrTrace r] irrLayout;
      Plotly_newPlot moicPlotDiv [moicTrace (filter above_threshold samples)] moicLayout ] /\
  chart_after irrPlotDiv chart (fst (click h)) = Some ([irrTrace r], irrLayout) /\
  chart_after moicPlotDiv chart (fst (click h)) =
    Some ([moicTrace (filter above_threshold samples)], moicLayout).
Proof.
  intros E1 E2 E3 E4. rewrite (click_success h o r entries samples E1 E2 E3 E4).
  repeat split; reflexivity.
Qed.

Lemma success_leaves_error_hidden_witness :
  snd (inputData host_ok) = normal (gathered host_ok) /\
  display_after errorMessage (lit "block") (fst (click host_ok)) = lit "none" /\
  textContent_after errorMessage (lit "Error: old") (fst (click host_ok)) = lit "Error: old".
Proof.
  assert (E : snd (inputData host_ok) = normal (gathered host_ok))
    by (vm_compute; reflexivity).
  split; [exact E|]. split.
  - exact (proj1 (success_leaves_error_hidden host_ok _ sample_results sample_entries
                    [0.001; 0.02; 5; 10]%float (lit "block") None E eq_refl eq_refl eq_refl)).
  - exact (proj1 (proj2 (success_leaves_error_hidden host_ok _ sample_results sample_entries
                    [0.001; 0.02; 5; 10]%float (lit "Error: old") None
                    E eq_refl eq_refl eq_refl))).
Defined.



(** ** The histogram of the returns *)

(** X7: whenever the report is rendered, with or without the samples of the
    multiples, the only chart drawn in the IRR node is the histogram of
    [plot_data_irr] as the body gives it, nothing filtered out, in 100
    bins. *)
Theorem irr_histogram_input (h : host) (o : list (jstring * float)) (r : results)
    (entries : list (jstring * metric)) :
  snd (inputData h) = normal o ->
  respond h (JSON.stringify o) = parsed true r ->
  metrics r = Some entries ->
  forall data l,
    In (Plotly_newPlot irrPlotDiv data l) (fst (click h)) <->
    data = [ {| trace_x := plot_data_irr r;
                trace_type := lit "histogram";
                trace_nbinsx := Some 100%Z;
                trace_name := lit "IRR";
                trace_marker_color := lit "#007bff" |} ] /\
    l = irrLayout.
Proof.
  intros E1 E2 E3 data l. rewrite click_run. unfold guarded_trace.
  rewrite E1, E2, E3. cbn [fst]. rewrite !in_app_iff. split.
  - intros [Hp|[Hg|Hc]].
    + cbn in Hp. none_of Hp.
    + destruct Hg as [Hg|[Hg|[Hg|Hg]]]; try discriminate.
      * now injection Hg as <- <-.
      * destruct (plot_data_moic r); cbn in Hg; none_of Hg.
    + cbn in Hc. none_of Hc.
  - intros [-> ->]. right. left. right. right. left. reflexivity.
Qed.

Lemma irr_histogram_input_witness :
  snd (inputData host_without_moic) = normal (gathered host_without_moic) /\
  In (Plotly_newPlot irrPlotDiv [irrTrace results_without_moic] irrLayout)
     (fst (click host_without_moic)) /\
  trace_x (irrTrace results_without_moic) = Some [0.05; 0.1234]%float.
Proof.
  assert (E : snd (inputData host_without_moic) = normal (gathered host_without_moic))
    by (vm_compute; reflexivity).
  split; [exact E|]. split; [|reflexivity].
  apply (proj2 (irr_histogram_input host_without_moic _ results_without_moic sample_entries
                  E eq_refl eq_refl _ _)).
  split; reflexivity.
Defined.

(** ** The text of the report *)

Lemma trimStart_head (s : jstring) :
  trimStart s = [] \/ exists c t, trimStart s = c :: t /\ isWhiteSpace c = false.
Proof.
  induction s as [|c s IH]; simpl; [now left|].
  destruct (isWhiteSpace c) eqn:E; [exact IH|].
  right. now exists c, s.
Qed.

Lemma trim_empty_or_solid (s : jstring) : trim s = [] \/ solid (trim s) = true.
Proof.
  unfold trim, trimEnd.
  destruct (trimStart_head s) as [->|(c & t & -> & Hc)]; [now left|].
  right. simpl rev. rewrite (trimStart_keep (rev t) c [] Hc).
  rewrite rev_app_distr. simpl rev. simpl app.
  destruct (trimStart_head (rev t)) as [->|(d & u & -> & Hd)].
  - simpl. unfold solid. simpl. rewrite Hc. reflexivity.
  - simpl rev. change (c :: rev u ++ [d]) with ((c :: rev u) ++ [d]).
    rewrite <- app_comm_cons. now apply solid_wrap.
Qed.

Lemma trim_fixed (s : jstring) : s = [] \/ solid s = true -> trim s = s.
Proof.
  intros [->|H]; [reflexivity|].
  rewrite <- (app_nil_r s) at 1. rewrite <- (app_nil_l (s ++ [])).
  rewrite (trim_keep [] s [] H). now rewrite app_nil_r.
Qed.

(** X8: the text written to the report node never begins or ends with white
    space or a line break: it is empty, or its first and last code units are
    not white space; trimming it again changes nothing. *)
Theorem report_has_no_outer_white_space (h : host) (entries : list (jstring * metric)) :
  (report_text h entries = [] \/ solid (report_text h entries) = true) /\
  trim (report_text h entries) = report_text h entries.
Proof.
  assert (H := trim_empty_or_solid (metricsText h entries)).
  split; [exact H|]. apply trim_fixed. exact H.
Qed.

(** ** Controls that hold no number, or more than a number *)

Lemma isDigit_cases (c : code_unit) :
  isDigit c = true ->
  (c = 48 \/ c = 49 \/ c = 50 \/ c = 51 \/ c = 52 \/
   c = 53 \/ c = 54 \/ c = 55 \/ c = 56 \/ c = 57)%N.
Proof.
  unfold isDigit. rewrite andb_true_iff, !N.leb_le. lia.
Qed.






Lemma span_digits_prefix (d rest : jstring) (c : code_unit) :
  Forall (fun x => isDigit x = true) d -> isDigit c = false ->
  span_digits (d ++ c :: rest) = (d, c :: rest).
Proof.
  intros Hd Hc. induction Hd as [|x d Hx _ IH]; simpl.
  - rewrite Hc. reflexivity.
  - rewrite Hx, IH. reflexivity.
Qed.

(** [parseInt] reads the leading digits and ignores what follows them. *)
Lemma parseInt_prefix (d rest : jstring) (c : code_unit) :
  d <> [] -> Forall (fun x => isDigit x = true) d ->
  isDigit c = false -> c <> 120%N -> c <> 88%N ->
  parseInt (d ++ c :: rest) = of_Z (Z.of_N (digits_value d)).
Proof.
  intros Hne Hd Hc Hx HX.
  destruct d as [|d0 d']; [contradiction|].
  assert (Hspan := span_digits_prefix (d0 :: d') rest c Hd Hc).
  inversion Hd as [|? ? Hd0 Hd']; subst.
  assert (Hhex : startsWith ((d0 :: d') ++ c :: rest) (lit "0x") ||
                 startsWith ((d0 :: d') ++ c :: rest) (lit "0X") = false).
  { change (lit "0x") with [48; 120]%N. change (lit "0X") with [48; 88]%N.
    destruct d' as [|d1 d'']; cbn [app startsWith].
    - apply N.eqb_neq in Hx, HX. rewrite N.eqb_sym in Hx. rewrite N.eqb_sym in HX.
      rewrite Hx, HX, !andb_false_r. reflexivity.
    - inversion Hd' as [|? ? Hd1 _]; subst.
      destruct (isDigit_cases d1 Hd1) as [E|[E|[E|[E|[E|[E|[E|[E|[E|E]]]]]]]]];
        subst d1; cbn; rewrite !andb_false_r; reflexivity. }
  unfold parseInt.
  assert (Ht : trimStart ((d0 :: d') ++ c :: rest) = (d0 :: d') ++ c :: rest).
  { destruct (isDigit_cases d0 Hd0) as [E|[E|[E|[E|[E|[E|[E|[E|[E|E]]]]]]]]];
      subst d0; reflexivity. }
  rewrite Ht.
  assert (Hs : strip_sign ((d0 :: d') ++ c :: rest) = (false, (d0 :: d') ++ c :: rest)).
  { destruct (isDigit_cases d0 Hd0) as [E|[E|[E|[E|[E|[E|[E|[E|[E|E]]]]]]]]];
      subst d0; reflexivity. }
  rewrite Hs. cbv zeta. rewrite Hhex, Hspan. cbn [fst].
  destruct (digits_value (d0 :: d')); reflexivity.
Qed.

(** X10: a field read with [parseInt] takes the leading digits of its
    control and drops what follows, a fraction as well as any text: the value
    gathered is the integer those digits write, not a rounding of the
    number. *)
Theorem integer_field_drops_the_rest (h : host) (key id : string)
    (d rest : jstring) (c : code_unit) :
  In (key, id) integer_rows ->
  (forall k i p, In (k, i, p) request_fields -> control_value h (lit i) <> None) ->
  control_value h (lit id) = Some (d ++ c :: rest) ->
  d <> [] -> Forall (fun x => isDigit x = true) d ->
  isDigit c = false -> c <> 120%N -> c <> 88%N ->
  exists o,
    snd (inputData h) = normal o /\
    In (lit key, of_Z (Z.of_N (digits_value d))) o /\
    In (sent (JSON.stringify o)) (fst (click h)).
Proof.
  intros Hrow Hall Hv Hne Hd Hc Hx HX.
  assert (Hin : In (key, id, parseInt) request_fields).
  { unfold integer_rows in Hrow. cbn [In] in Hrow.
    destruct Hrow as [H|[H|[H|[]]]]; injection H as <- <-; unfold request_fields.
    - do 19 right. left. reflexivity.
    - do 20 right. left. reflexivity.
    - do 24 right. left. reflexivity. }
  destruct (field_in_body h key id parseInt _ Hin Hall Hv) as (o & E & Hkv & Hs & _).
  exists o. split; [exact E|]. split; [|exact Hs].
  rewrite (parseInt_prefix d rest c Hne Hd Hc Hx HX) in Hkv. exact Hkv.
Qed.

Lemma integer_field_drops_the_rest_witness :
  control_value host_fractional_rounds (lit "rounds-max") = Some (lit "7" ++ 46%N :: lit "9 rounds") /\
  exists o,
    snd (inputData host_fractional_rounds) = normal o /\
    In (lit "rounds_max", 7%float) o /\
    In (sent (JSON.stringify o)) (fst (click host_fractional_rounds)).
Proof.
  split; [reflexivity|].
  apply (integer_field_drops_the_rest host_fractional_rounds "rounds_max" "rounds-max"
           (lit "7") (lit "9 rounds") 46%N).
  - right. left. reflexivity.
  - intros k i p _. cbn. unfold controls. destruct (JSString.eqb _ _); discriminate.
  - reflexivity.
  - discriminate.
  - repeat constructor.
  - reflexivity.
  - discriminate.
  - discriminate.
Defined.

(** * The template, frontend/app.js *)

Section TemplateRun.

Variable h : host.

(** Reading the controls is the same in the two scripts. *)
Lemma template_gather fields :
  fst (Template.gather h fields) = [] /\
  snd (Template.gather h fields) = snd (gather h fields).
Proof.
  induction fields as [|[[key id] parse] rest [IH1 IH2]]; [now split|].
  simpl. unfold Template.read, read.
  destruct (control_value h (lit id)) as [v|]; [|now split].
  unfold Template.bind at 1, bind at 1.
  cbn [snd fst ret Template.ret app].
  unfold Template.bind, bind. rewrite IH1, IH2.
  destruct (snd (gather h rest)); split; reflexivity.
Qed.

Lemma template_inputData_pair :
  Template.inputData h = ([], snd (gather h Template.request_fields)).
Proof.
  rewrite (surjective_pairing (Template.inputData h)).
  unfold Template.inputData.
  destruct (template_gather Template.request_fields) as [-> ->]. reflexivity.
Qed.

Lemma template_guarded_run :
  Template.try_catch (Template.attempt h) Template.report =
  (Template.guarded_trace h, normal tt).
Proof.
  unfold Template.guarded_trace, Template.attempt.
  rewrite template_inputData_pair. cbn [snd].
  destruct (snd (gather h Template.request_fields)) as [o|e]; [|reflexivity].
  unfold Template.bind at 1. cbn [snd fst app].
  unfold Template.post.
  destruct (respond h (JSON.stringify o)) as [e|e|[|] r]; try reflexivity.
  cbv [Template.bind Template.try_catch Template.tell Template.ret Template.throw
       Template.report fst snd app Template.shown Template.sent
       Template.Object_entries Template.moic_filter].
  destruct (metrics r) as [entries|]; destruct (plot_data_moic r) as [l|];
    reflexivity.
Qed.

Lemma template_click_run :
  Template.click h =
  (Template.prelude ++ Template.guarded_trace h ++ [Template.cleanup], normal tt).
Proof.
  unfold Template.click. rewrite template_guarded_run. reflexivity.
Qed.

Lemma template_guarded_quiet :
  filter Template.hides_loading (Template.guarded_trace h) = [].
Proof.
  unfold Template.guarded_trace.
  destruct (snd (Template.inputData h)) as [o|e]; [|reflexivity].
  destruct (respond h (JSON.stringify o)) as [e|e|[|] r]; try reflexivity.
  destruct (metrics r); [|reflexivity].
  destruct (plot_data_moic r); reflexivity.
Qed.

(** The object gathered from a row and the rows after it. *)
Lemma gather_cons key id parse rest o :
  snd (gather h ((key, id, parse) :: rest)) = normal o <->
  exists v o', control_value h (lit id) = Some v /\
               snd (gather h rest) = normal o' /\
               o = (lit key, parse v) :: o'.
Proof.
  simpl. unfold read. destruct (control_value h (lit id)) as [v|].
  - unfold bind at 1. cbn [snd fst ret app].
    destruct (snd (gather h rest)) as [o'|e] eqn:E.
    + rewrite (bind_normal _ _ _ E). cbn [snd ret]. split.
      * intros [= <-]. now exists v, o'.
      * intros (v' & o'' & [= <-] & [= <-] & ->). reflexivity.
    + rewrite (bind_thrown _ _ _ E). cbn [snd]. split; [discriminate|].
      intros (v' & o'' & _ & H & _). discriminate.
  - cbn [snd throw bind]. split; [discriminate|].
    intros (v' & o'' & H & _). discriminate.
Qed.

(** Gathering a part of the rows gives that part of the object. *)
Lemma gather_kept fields o :
  snd (gather h fields) = normal o ->
  snd (gather h (filter (fun row => Template.kept (lit (fst (fst row)))) fields)) =
    normal (filter (fun kv => Template.kept (fst kv)) o).
Proof.
  revert o. induction fields as [|[[key id] parse] rest IH]; intros o E.
  - simpl in E. injection E as <-. reflexivity.
  - apply gather_cons in E. destruct E as (v & o' & Hv & E' & ->).
    cbn [filter fst snd]. destruct (Template.kept (lit key)).
    + apply gather_cons. exists v, (filter (fun kv => Template.kept (fst kv)) o').
      split; [exact Hv|]. split; [now apply IH | reflexivity].
    + now apply IH.
Qed.

End TemplateRun.

(** The template on any page. *)

Section TemplatePageRun.

Variable p : page.
Variable h : host.

Lemma template_completes_spec :
  Template.completes p = true ->
  node_fault p loadingMessage = None /\
  node_fault p errorMessage = None /\
  node_fault p metricsOutput = None /\
  purge_fault p irrPlotDiv = None /\
  purge_fault p moicPlotDiv = None.
Proof.
  unfold Template.completes, Template.prelude. cbn [forallb Template.raised].
  destruct (node_fault p loadingMessage), (node_fault p errorMessage),
    (node_fault p metricsOutput), (purge_fault p irrPlotDiv),
    (purge_fault p moicPlotDiv); cbn; intros H; try discriminate H.
  repeat split.
Qed.

Lemma template_guarded_run_on :
  Template.completes p = true ->
  Template.try_catch (Template.attempt_on p h) (Template.report_on p) =
  (Template.guarded_trace_on p h, normal tt).
Proof.
  intros C. destruct (template_completes_spec C) as (_ & He & Hm & _ & _).
  unfold Template.guarded_trace_on, Template.attempt_on.
  rewrite template_inputData_pair. cbn [snd].
  destruct (snd (gather h Template.request_fields)) as [o|e].
  - unfold Template.bind at 1. cbn [snd fst app].
    unfold Template.post.
    destruct (respond h (JSON.stringify o)) as [e|e|[|] r].
    1,2,4: cbv [Template.bind Template.try_catch Template.tell Template.ret
                Template.throw Template.report_on Template.perform Template.raised
                fst snd app Template.shown Template.sent];
           rewrite He; reflexivity.
    cbv [Template.bind Template.try_catch Template.tell Template.ret Template.throw
         Template.report_on Template.perform Template.raised fst snd app
         Template.shown Template.sent Template.Object_entries Template.moic_filter].
    rewrite He, Hm.
    destruct (metrics r) as [entries|]; [|reflexivity].
    destruct (newPlot_fault p irrPlotDiv); [reflexivity|].
    destruct (plot_data_moic r) as [l|]; [|reflexivity].
    destruct (newPlot_fault p moicPlotDiv); reflexivity.
  - cbv [Template.bind Template.try_catch Template.tell Template.ret Template.throw
         Template.report_on Template.perform Template.raised fst snd app Template.shown].
    rewrite He. reflexivity.
Qed.

Lemma template_click_on_run :
  Template.completes p = true ->
  Template.click_on p h =
  (Template.prelude ++ Template.guarded_trace_on p h ++ [Template.cleanup], normal tt).
Proof.
  intros C. destruct (template_completes_spec C) as (Hl & He & Hm & Hi & Hc).
  unfold Template.click_on. rewrite (template_guarded_run_on C).
  unfold Template.perform. cbn [Template.raised]. rewrite Hl, He, Hm, Hi, Hc.
  reflexivity.
Qed.

Lemma template_guarded_quiet_on :
  filter Template.hides_loading (Template.guarded_trace_on p h) = [].
Proof.
  unfold Template.guarded_trace_on.
  destruct (snd (Template.inputData h)) as [o|e]; [|reflexivity].
  destruct (respond h (JSON.stringify o)) as [e|e|[|] r]; try reflexivity.
  destruct (metrics r); [|reflexivity].
  destruct (newPlot_fault p irrPlotDiv); [reflexivity|].
  destruct (plot_data_moic r); [|reflexivity].
  destruct (newPlot_fault p moicPlotDiv); reflexivity.
Qed.

(** On a page where no statement throws, the template is [Template.click]. *)
Lemma template_click_on_sound :
  (forall e, Template.raised p e = None) -> Template.click_on p h = Template.click h.
Proof.
  intros Hnone.
  assert (C : Template.completes p = true).
  { unfold Template.completes. apply forallb_forall. intros e _. now rewrite Hnone. }
  rewrite (template_click_on_run C), template_click_run.
  unfold Template.guarded_trace_on, Template.guarded_trace.
  assert (Hi : newPlot_fault p irrPlotDiv = None)
    by exact (Hnone (Template.Plotly_newPlot irrPlotDiv [] Template.irrLayout)).
  assert (Hm : newPlot_fault p moicPlotDiv = None)
    by exact (Hnone (Template.Plotly_newPlot moicPlotDiv [] Template.moicLayout)).
  rewrite Hi, Hm. reflexivity.
Qed.

End TemplatePageRun.

(** X11: the template keeps the guarantee of the script on the loading
    indicator, and its limit: in every run in which the five statements
    before the [try] block complete, whatever the outcome, its promise is
    fulfilled and the indicator is hidden exactly once, by the last effect of
    the run. *)
Theorem template_loading_hidden_exactly_once (p : page) (h : host) (initial : jstring) :
  Template.completes p = true ->
  snd (Template.click_on p h) = normal tt /\
  List.length (filter Template.hides_loading (fst (Template.click_on p h))) = 1%nat /\
  (exists before,
     fst (Template.click_on p h) = before ++ [Template.cleanup] /\
     filter Template.hides_loading before = []) /\
  Template.display_after loadingMessage initial (fst (Template.click_on p h)) = lit "none".
Proof.
  intros C. rewrite (template_click_on_run p h C). cbn [fst snd]. repeat split.
  - rewrite !filter_app, template_guarded_quiet_on. reflexivity.
  - exists (Template.prelude ++ Template.guarded_trace_on p h). split.
    + now rewrite <- app_assoc.
    + rewrite filter_app, template_guarded_quiet_on. reflexivity.
  - unfold Template.display_after. rewrite app_assoc, fold_left_app. reflexivity.
Qed.

Lemma template_loading_hidden_exactly_once_witness :
  Template.completes without_drawing = true /\
  snd (Template.click_on without_drawing host_ok) = normal tt /\
  Template.display_after loadingMessage (lit "block")
    (fst (Template.click_on without_drawing host_ok)) = lit "none".
Proof.
  assert (C : Template.completes without_drawing = true) by reflexivity.
  split; [exact C|].
  destruct (template_loading_hidden_exactly_once without_drawing host_ok (lit "block") C)
    as (H1 & _ & _ & H4).
  split; [exact H1 | exact H4].
Defined.

(** X12: on a page where the script gathers its 25 fields, the template
    gathers four of them, [failure_rate_pct], [zombie_rate_pct],
    [initial_investment] and [num_simulations], with the same values and in
    the same order, and sends them alone. *)
Theorem template_sends_four_fields (h : host) (o : list (jstring * float)) :
  snd (inputData h) = normal o ->
  snd (Template.inputData h) = normal (filter (fun kv => Template.kept (fst kv)) o) /\
  map fst (filter (fun kv => Template.kept (fst kv)) o) =
    map lit [ "failure_rate_pct"; "zombie_rate_pct"; "initial_investment";
              "num_simulations" ]%string /\
  In (Template.sent (JSON.stringify (filter (fun kv => Template.kept (fst kv)) o)))
     (fst (Template.click h)).
Proof.
  intros E.
  assert (E4 : snd (gather h Template.request_fields) =
               normal (filter (fun kv => Template.kept (fst kv)) o)).
  { exact (gather_kept h request_fields o E). }
  assert (T : snd (Template.inputData h) =
              normal (filter (fun kv => Template.kept (fst kv)) o)).
  { unfold Template.inputData.
    rewrite (proj2 (template_gather h Template.request_fields)). exact E4. }
  split; [exact T|]. split.
  - exact (gather_keys h Template.request_fields _ E4).
  - rewrite template_click_run. cbn [fst]. rewrite !in_app_iff. right. left.
    unfold Template.guarded_trace. rewrite T. now left.
Qed.

Lemma template_sends_four_fields_witness :
  snd (inputData host_ok) = normal (gathered host_ok) /\
  List.length (gathered host_ok) = 25%nat /\
  snd (Template.inputData host_ok) =
    normal [ (lit "failure_rate_pct", 10000.7%float); (lit "zombie_rate_pct", 10000.7%float);
             (lit "initial_investment", 10000.7%float); (lit "num_simulations", 10000%float) ].
Proof.
  assert (E : snd (inputData host_ok) = normal (gathered host_ok))
    by (vm_compute; reflexivity).
  split; [exact E|]. split; [reflexivity|].
  exact (proj1 (template_sends_four_fields host_ok (gathered host_ok) E)).
Defined.



(** X14: when the template renders, the two charts it draws have the inputs
    of the script: [plot_data_irr] as it is, and the samples of
    [plot_data_moic] above 0.01 in their order. *)
Theorem template_histogram_inputs (h : host) (o : list (jstring * float)) (r : results)
    (entries : list (jstring * metric)) (samples : list float) :
  snd (Template.inputData h) = normal o ->
  respond h (JSON.stringify o) = parsed true r ->
  metrics r = Some entries ->
  plot_data_moic r = Some samples ->
  forall n data l,
    In (Template.Plotly_newPlot n data l) (fst (Template.click h)) ->
    (n = irrPlotDiv /\ map Template.trace_x data = [plot_data_irr r] /\
     map Template.trace_x data = map trace_x [irrTrace r]) \/
    (n = moicPlotDiv /\ map Template.trace_x data = [Some (filter above_threshold samples)] /\
     map Template.trace_x data = map trace_x [moicTrace (filter above_threshold samples)]).
Proof.
  intros E1 E2 E3 E4 n data l. rewrite template_click_run. unfold Template.guarded_trace.
  rewrite E1, E2, E3, E4. cbn [fst]. rewrite !in_app_iff.
  intros [Hp|[Hg|Hc]].
  - cbn in Hp. none_of Hp.
  - destruct Hg as [Hg|[Hg|[Hg|[Hg|[]]]]]; try discriminate.
    + injection Hg as <- <- <-. left. repeat split.
    + injection Hg as <- <- <-. right. repeat split.
  - cbn in Hc. none_of Hc.
Qed.

Lemma template_histogram_inputs_witness :
  snd (Template.inputData host_ok) = normal (filter (fun kv => Template.kept (fst kv)) (gathered host_ok)) /\
  In (Template.Plotly_newPlot moicPlotDiv
        [Template.moicTrace [0.02; 5; 10]%float] Template.moicLayout)
     (fst (Template.click host_ok)) /\
  map Template.trace_x [Template.moicTrace [0.02; 5; 10]%float] =
    map trace_x [moicTrace [0.02; 5; 10]%float].
Proof.
  assert (E : snd (Template.inputData host_ok) =
              normal (filter (fun kv => Template.kept (fst kv)) (gathered host_ok)))
    by (vm_compute; reflexivity).
  split; [exact E|].
  assert (Hin : In (Template.Plotly_newPlot moicPlotDiv
                      [Template.moicTrace [0.02; 5; 10]%float] Template.moicLayout)
                   (fst (Template.click host_ok))).
  { vm_compute. do 8 right. left. reflexivity. }
  split; [exact Hin|].
  destruct (template_histogram_inputs host_ok _ sample_results sample_entries
              [0.001; 0.02; 5; 10]%float E eq_refl eq_refl eq_refl _ _ _ Hin)
    as [(Hn & _)|(_ & _ & H)]; [discriminate | exact H].
Defined.
